(** * V4 signed-URL conformance harness (conformance-test/v4SignedUrl.ts)

    A shallow embedding of the conformance test file of nodejs-storage and
    of the signing engine it drives.  The harness (fixture partition,
    addressing-style parsing, verb dispatch, URL comparison, the skipped
    policy suite) is translated from the TypeScript source.  The engine
    itself lives in [../src/] of the repository and is modelled from the
    written specification; those definitions are marked as such. *)

From stdpp Require Import gmap strings list fin_maps.
From Stdlib Require Import ZArith Ascii DecimalString Permutation.

Set Warnings "-register-all".

Local Open Scope string_scope.
Local Open Scope Z_scope.

(** ** JavaScript values as the harness sees them *)

Module Js.

(** The result of [JSON.parse]: fixture entries are read as [any].  The
    numbers of the fixture are integers. *)
Inductive Json : Type :=
| JNull
| JBool (b : bool)
| JNum (z : Z)
| JStr (s : string)
| JArr (items : list Json)
| JObj (fields : list (string * Json)).

(** Property read [o.k] on a parsed object; [None] is [undefined]. *)
Fixpoint get (fields : list (string * Json)) (k : string) : option Json :=
  match fields with
  | [] => None
  | (k', v) :: rest => if String.eqb k' k then Some v else get rest k
  end.

(** ToBoolean on a JSON value. *)
Definition truthy (v : Json) : bool :=
  match v with
  | JNull => false
  | JBool b => b
  | JNum z => negb (z =? 0)
  | JStr s => negb (String.eqb s "")
  | JArr _ => true
  | JObj _ => true
  end.

(** ToBoolean on a possibly-undefined property. *)
Definition truthy_prop (v : option Json) : bool :=
  match v with
  | None => false
  | Some j => truthy j
  end.

(** ToBoolean on an optional string field ([undefined] and [''] are falsy). *)
Definition truthy_str (s : option string) : bool :=
  match s with
  | None => false
  | Some s => negb (String.eqb s "")
  end.

(** Names every ordinary object inherits from [Object.prototype]. *)
Definition objectPrototypeKeys : list string :=
  [ "constructor"; "__defineGetter__"; "__defineSetter__"; "hasOwnProperty";
    "__lookupGetter__"; "__lookupSetter__"; "isPrototypeOf";
    "propertyIsEnumerable"; "toString"; "valueOf"; "__proto__";
    "toLocaleString" ].

(** What a computed member access [literal[k]] evaluates to. *)
Inductive Member : Type :=
| Own (v : string)
| Inherited (name : string)
| Undefined.

Fixpoint own (literal : list (string * string)) (k : string) : option string :=
  match literal with
  | [] => None
  | (k', v) :: rest => if String.eqb k' k then Some v else own rest k
  end.

(** [literal[k]] for an object literal with string members: the own
    property if there is one, else whatever the prototype chain has. *)
Definition member (literal : list (string * string)) (k : string) : Member :=
  match own literal k with
  | Some v => Own v
  | None =>
      if existsb (String.eqb k) objectPrototypeKeys then Inherited k
      else Undefined
  end.

End Js.

(** ** Test-case types *)

Inductive UrlStyle : Type :=
| PATH_STYLE
| VIRTUAL_HOSTED_STYLE
| BUCKET_BOUND_HOSTNAME.

Inductive Scheme : Type := https | http.

Definition scheme_str (s : Scheme) : string :=
  match s with https => "https" | http => "http" end.

Record V4SignedURLTestCase : Type := {
  description : string;
  bucket : string;
  object : option string;
  urlStyle : option UrlStyle;
  bucketBoundHostname : option string;
  scheme : Scheme;
  headers : option (list (string * string));
  queryParameters : option (list (string * string));
  method : string;
  expiration : Z;
  timestamp : string;
  expectedUrl : string
}.

(** ** Fixture partition (source lines 89-99) *)

(** A fixture entry: one object of the [signingV4Tests] array. *)
Definition Entry : Type := list (string * Js.Json).

Definition isUrlCase (testCase : Entry) : bool :=
  Js.truthy_prop (Js.get testCase "expectedUrl").

Definition isPolicyCase (testCase : Entry) : bool :=
  Js.truthy_prop (Js.get testCase "policyInput").

(** The two arrays the loop pushes to. *)
Record Partition : Type := {
  v4SignedUrlCases : list Entry;
  v4SignedPolicyCases : list Entry
}.

(** One iteration of [for (const testCase of testCases)]. *)
Definition partitionStep (acc : Partition) (testCase : Entry) : Partition :=
  if isUrlCase testCase then
    {| v4SignedUrlCases := v4SignedUrlCases acc ++ [testCase];
       v4SignedPolicyCases := v4SignedPolicyCases acc |}
  else if isPolicyCase testCase then
    {| v4SignedUrlCases := v4SignedUrlCases acc;
       v4SignedPolicyCases := v4SignedPolicyCases acc ++ [testCase] |}
  else acc.

Definition partitionCases (testCases : list Entry) : Partition :=
  fold_left partitionStep testCases
    {| v4SignedUrlCases := []; v4SignedPolicyCases := [] |}.

(** ** Addressing style (source lines 118-124 and 214-225) *)

Record StyleConfig : Type := {
  cname : option string;
  virtualHostedStyle : option bool
}.

Definition parseUrlStyle (style : option UrlStyle) (domain : option string)
  : StyleConfig :=
  match style with
  | Some BUCKET_BOUND_HOSTNAME =>
      {| cname := domain; virtualHostedStyle := None |}
  | Some VIRTUAL_HOSTED_STYLE =>
      {| cname := None; virtualHostedStyle := Some true |}
  | _ => {| cname := None; virtualHostedStyle := Some false |}
  end.

(** [const domain = testCase.bucketBoundHostname ? `${scheme}://${host}` : undefined] *)
Definition domain (testCase : V4SignedURLTestCase) : option string :=
  match bucketBoundHostname testCase with
  | Some h =>
      if Js.truthy_str (Some h)
      then Some (scheme_str (scheme testCase) +:+ "://" +:+ h)
      else None
  | None => None
  end.

Definition styleOf (testCase : V4SignedURLTestCase) : StyleConfig :=
  parseUrlStyle (urlStyle testCase) (domain testCase).

(** ** Verb dispatch (source lines 137-161) *)

Definition FileAction : list (string * string) :=
  [ ("GET", "read"); ("POST", "resumable"); ("PUT", "write");
    ("DELETE", "delete") ].

Definition BucketAction : list (string * string) :=
  [ ("GET", "list") ].

(** The [action] value computed in either branch of [if (testCase.object)]. *)
Definition action (testCase : V4SignedURLTestCase) : Js.Member :=
  if Js.truthy_str (object testCase)
  then Js.member FileAction (method testCase)
  else Js.member BucketAction (method testCase).

(** ** What the harness hands to the engine *)

Inductive Target : Type :=
| FileTarget (bucketName objectName : string)
| BucketTarget (bucketName : string).

Module GetSignedUrlConfig.
Record t : Type := {
  action : Js.Member;
  extensionHeaders : option (list (string * string));
  version : string;
  expires : Z;
  cname : option string;
  virtualHostedStyle : option bool;
  queryParams : option (list (string * string))
}.
End GetSignedUrlConfig.

(** ** The objects compared by the assertions *)

(** A parsed [url.URL]; [search] is empty or starts with a question mark. *)
Record Url : Type := {
  origin : string;
  pathname : string;
  search : string
}.

(** A value of the object returned by [querystring.parse]. *)
Inductive QsValue : Type :=
| QsStr (s : string)
| QsArr (items : list string).

#[global] Instance QsValue_eq_dec : EqDecision QsValue.
Proof. solve_decision. Defined.

(** An object with its own enumerable properties in insertion order. *)
Definition QsObject : Type := list (string * QsValue).

Fixpoint qsGet (o : QsObject) (k : string) : option QsValue :=
  match o with
  | [] => None
  | (k', v) :: rest => if String.eqb k' k then Some v else qsGet rest k
  end.

(** Every own key of [a] is bound in [b] to the same value. *)
Definition qsSubObject (a b : QsObject) : bool :=
  forallb (fun kv => bool_decide (qsGet a kv.1 = qsGet b kv.1)) a.

(** [assert.deepStrictEqual] on two such objects: the same own keys with
    strictly equal values, whatever the order the keys were inserted in. *)
Definition deepStrictEqual (a b : QsObject) : bool :=
  qsSubObject a b && qsSubObject b a.

(** The mapping an object denotes. *)
Definition qsMap (o : QsObject) : gmap string QsValue := list_to_map o.

(** ** The clock, faked by sinon *)

Record Clock : Type := {
  wall : Z;
  fake : option Z
}.

Definition Date_now (c : Clock) : Z :=
  match fake c with
  | Some t => t
  | None => wall c
  end.

(** ** Running a test body *)

Inductive Event : Type :=
| EvUseFakeTimers (now : Z)
| EvGetSignedUrl (target : Target) (config : GetSignedUrlConfig.t)
| EvStrictEqual (actual expected : string)
| EvDeepStrictEqual (actual expected : QsObject)
| EvRestore.

Definition isAssertion (e : Event) : bool :=
  match e with
  | EvStrictEqual _ _ | EvDeepStrictEqual _ _ => true
  | _ => false
  end.

Definition isEngineCall (e : Event) : bool :=
  match e with
  | EvGetSignedUrl _ _ => true
  | _ => false
  end.

Record World : Type := {
  clock : Clock;
  trace : list Event
}.

(** A test body: it reads and updates the world and either returns or
    throws ([None]); the world it leaves behind is kept in both cases. *)
Definition Test (A : Type) : Type := World -> option A * World.

Definition ret {A} (a : A) : Test A := fun w => (Some a, w).

Definition throw {A} : Test A := fun w => (None, w).

Definition bind {A B} (m : Test A) (k : A -> Test B) : Test B :=
  fun w =>
    match m w with
    | (Some a, w') => k a w'
    | (None, w') => (None, w')
    end.

#[global] Instance Test_ret : MRet Test := @ret.
#[global] Instance Test_bind : MBind Test := fun A B k m => bind m k.

Definition emit (e : Event) : Test unit :=
  fun w => (Some tt, {| clock := clock w; trace := trace w ++ [e] |}).

Definition useFakeTimers (now : Z) : Test unit :=
  fun w => (Some tt, {| clock := {| wall := wall (clock w); fake := Some now |};
                        trace := trace w ++ [EvUseFakeTimers now] |}).

(** [fakeTimer.restore()] for a fake installed over the real clock. *)
Definition restore : Test unit :=
  fun w => (Some tt, {| clock := {| wall := wall (clock w); fake := None |};
                        trace := trace w ++ [EvRestore] |}).

Definition assert_strictEqual (actual expected : string) : Test unit :=
  emit (EvStrictEqual actual expected);;
  if bool_decide (actual = expected) then ret tt else throw.

Definition assert_deepStrictEqual (actual expected : QsObject) : Test unit :=
  emit (EvDeepStrictEqual actual expected);;
  if deepStrictEqual actual expected then ret tt else throw.

Definition liftOption {A} (o : option A) : Test A :=
  match o with
  | Some a => ret a
  | None => throw
  end.

(** ** External collaborators of the test body

    [Date_parse] is [new Date(s).valueOf()], [URL_parse] is [new url.URL(s)]
    (it throws on a malformed URL), [querystring_parse] is
    [querystring.parse], and [getSignedUrl] is the engine behind
    [file.getSignedUrl] and [bucket.getSignedUrl]: it sees the time only
    through [Date.now()], whose reading is its first argument, and rejects
    by returning [None]. *)
Record Runtime : Type := {
  Date_parse : string -> Z;
  URL_parse : string -> option Url;
  querystring_parse : string -> QsObject;
  getSignedUrl : Z -> Target -> GetSignedUrlConfig.t -> option string
}.

(** ** The body of one URL test (source lines 111-175) *)

(** [const expires = NOW.valueOf() + testCase.expiration * 1000], for a
    valid timestamp and an integer expiration; the value is the exact one,
    which is what the double arithmetic of the source yields as long as
    the operands and the result are safe integers. *)
Definition expires (NOW : Z) (testCase : V4SignedURLTestCase) : Z :=
  NOW + expiration testCase * 1000.

(** [{action, ...baseConfig}] *)
Definition config (NOW : Z) (testCase : V4SignedURLTestCase)
  : GetSignedUrlConfig.t :=
  {| GetSignedUrlConfig.action := action testCase;
     GetSignedUrlConfig.extensionHeaders := headers testCase;
     GetSignedUrlConfig.version := "v4";
     GetSignedUrlConfig.expires := expires NOW testCase;
     GetSignedUrlConfig.cname := cname (styleOf testCase);
     GetSignedUrlConfig.virtualHostedStyle := virtualHostedStyle (styleOf testCase);
     GetSignedUrlConfig.queryParams := queryParameters testCase |}.

(** [bucket.file(testCase.object)] when the object is truthy, else [bucket]. *)
Definition target (testCase : V4SignedURLTestCase) : Target :=
  match object testCase with
  | Some o =>
      if Js.truthy_str (Some o) then FileTarget (bucket testCase) o
      else BucketTarget (bucket testCase)
  | None => BucketTarget (bucket testCase)
  end.

(** The engine runs against whatever [Date.now()] reads at that moment. *)
Definition engine (rt : Runtime) (tg : Target) (cfg : GetSignedUrlConfig.t)
  : Test string :=
  fun w => (getSignedUrl rt (Date_now (clock w)) tg cfg, w).

Definition callGetSignedUrl (rt : Runtime) (tg : Target)
    (cfg : GetSignedUrlConfig.t) : Test string :=
  emit (EvGetSignedUrl tg cfg);; engine rt tg cfg.

(** Lines 112-161: install the fake clock and obtain [signedUrl]. *)
Definition signTestCase (rt : Runtime) (testCase : V4SignedURLTestCase)
  : Test string :=
  let NOW := Date_parse rt (timestamp testCase) in
  useFakeTimers NOW;;
  callGetSignedUrl rt (target testCase) (config NOW testCase).

(** Lines 163-172: the three assertions on the parsed URLs. *)
Definition checkUrl (rt : Runtime) (expectedUrl signedUrl : string)
  : Test unit :=
  expected ← liftOption (URL_parse rt expectedUrl);
  actual ← liftOption (URL_parse rt signedUrl);
  assert_strictEqual (origin actual) (origin expected);;
  assert_strictEqual (pathname actual) (pathname expected);;
  assert_deepStrictEqual (querystring_parse rt (search actual))
                         (querystring_parse rt (search expected)).

Definition urlTest (rt : Runtime) (testCase : V4SignedURLTestCase)
  : Test unit :=
  signedUrl ← signTestCase rt testCase;
  checkUrl rt (expectedUrl testCase) signedUrl;;
  restore.

(** The body of a policy test (source lines 183-210): every statement is
    commented out. *)
Definition policyTest (testCase : Entry) : Test unit := mret tt.

(** ** Mocha suites *)

Inductive Verdict : Type := Passed | Failed | Pending.

Record TestDef : Type := {
  title : option Js.Json;
  body : Test unit
}.

(** [skipped] is set for [describe.skip]. *)
Record Suite : Type := {
  suiteTitle : string;
  skipped : bool;
  tests : list TestDef
}.

Definition runTest (t : TestDef) (w : World) : Verdict * World :=
  match body t w with
  | (Some _, w') => (Passed, w')
  | (None, w') => (Failed, w')
  end.

Fixpoint runTests (ts : list TestDef) (w : World)
  : list (option Js.Json * Verdict) * World :=
  match ts with
  | [] => ([], w)
  | t :: rest =>
      let '(v, w') := runTest t w in
      let '(vs, w'') := runTests rest w' in
      ((title t, v) :: vs, w'')
  end.

(** A skipped suite reports its tests as pending and runs none of them. *)
Definition runSuite (s : Suite) (w : World)
  : list (option Js.Json * Verdict) * World :=
  if skipped s then (map (fun t => (title t, Pending)) (tests s), w)
  else runTests (tests s) w.

(** [describe('v4 signed url', ...)] *)
Definition urlSuite (rt : Runtime) (cases : list V4SignedURLTestCase) : Suite :=
  {| suiteTitle := "v4 signed url";
     skipped := false;
     tests := map (fun testCase =>
                     {| title := Some (Js.JStr (description testCase));
                        body := urlTest rt testCase |}) cases |}.

(** [describe.skip('v4 signed policy', ...)]: the suite as registered
    when every description is a string, which [it] requires of a title. *)
Definition policySuite (cases : list Entry) : Suite :=
  {| suiteTitle := "v4 signed policy";
     skipped := true;
     tests := map (fun testCase =>
                     {| title := Js.get testCase "description";
                        body := policyTest testCase |}) cases |}.

Definition assertionsIn (w : World) : list Event :=
  List.filter isAssertion (trace w).

Definition engineCallsIn (w : World) : list Event :=
  List.filter isEngineCall (trace w).

(** ** The signing engine

    The engine ([Storage], [Bucket#getSignedUrl], [File#getSignedUrl]) is
    imported by the harness from [../src/]; it is modelled here from
    sections 3, 4 and 7 of the specification. *)

Module Engine.

(** Modelled from the spec: the error taxonomy of section 7; the engine's
    error classes are not part of the harness file. *)
Inductive SigningError : Type :=
| InvalidCredentialError
| InvalidAddressingError
| ExpirationRangeError
| InvalidConditionError
| QueryParamCollisionError.

(** Modelled from the spec: [SigningCredential] of section 3. *)
Record SigningCredential : Type := {
  issuerId : string;
  privateKey : string;
  clientEmail : string
}.

(** Modelled from the spec: [ResourceRef] of section 3. *)
Record ResourceRef : Type := {
  bucketName : string;
  objectPath : option string
}.

(** Modelled from the spec: [AddressingMode] of section 3; the bound
    hostname may be requested without its host, which section 4.3 rejects. *)
Inductive AddressingMode : Type :=
| PathStyle
| VirtualHostedStyle
| BoundHostname (host : option string).

(** Modelled from the spec: the actions of a [SigningRequest]. *)
Inductive Action : Type := Read | Write | Delete | Resumable | List.

(** Modelled from the spec: the HTTP verb each action signs for, the
    inverse of the dispatch listed in section 9. *)
Definition verb (a : Action) : string :=
  match a with
  | Read => "GET"
  | Resumable => "POST"
  | Write => "PUT"
  | Delete => "DELETE"
  | List => "GET"
  end.

(** Modelled from the spec: [SigningRequest] of section 3, together with
    the resource and scheme the assembler needs. *)
Record SigningRequest : Type := {
  resource : ResourceRef;
  urlScheme : Scheme;
  requestAction : Action;
  expirationSeconds : Z;
  referenceTimestamp : Z;
  extensionHeaders : list (string * string);
  extraQueryParams : list (string * string);
  addressing : AddressingMode
}.

(** Modelled from the spec: the leaf operations of sections 4.1 and 4.2
    whose bit-level definition no claim depends on (hashing, HMAC, key
    parsing, percent-encoding, header canonicalisation, date formatting)
    and the fixed service constants. *)
Record Primitives : Type := {
  hmacSha256 : string -> string -> string;
  sha256Hex : string -> string;
  hexLower : string -> string;
  parsePrivateKey : string -> option string;
  encodePath : string -> string;
  encodeQueryComponent : string -> string;
  canonicalizeHeaders : list (string * string) -> string * string;
  formatDate : Z -> string;
  formatTimestamp : Z -> string;
  showSeconds : Z -> string;
  storageEndpoint : string;
  location : string;
  service : string
}.

(** Modelled from the spec: the cryptographic work an engine run performs,
    recorded so that "before any cryptographic work begins" can be stated. *)
Inductive CryptoOp : Type :=
| KeyParse (key : string)
| Hmac (key msg : string)
| Sha256 (msg : string).

(** Modelled from the spec: an engine computation fails synchronously with
    a [SigningError] or returns; the record of cryptographic work done so
    far is threaded through. *)
Definition Eng (A : Type) : Type :=
  list CryptoOp -> (SigningError + A) * list CryptoOp.

(** Modelled from the spec: successful return of an engine computation. *)
Definition ok {A} (a : A) : Eng A := fun log => (inr a, log).

(** Modelled from the spec: failures are raised at the point of violation. *)
Definition fail {A} (e : SigningError) : Eng A := fun log => (inl e, log).

(** Modelled from the spec: sequencing; the first failure ends the run. *)
Definition andThen {A B} (m : Eng A) (k : A -> Eng B) : Eng B :=
  fun log =>
    match m log with
    | (inr a, log') => k a log'
    | (inl e, log') => (inl e, log')
    end.

Notation "'do' x <~ m ; k" := (andThen m (fun x => k))
  (at level 10, x name, m at level 100, k at level 200,
   format "'[v' 'do'  x  <~  m ; '/' k ']'").

(** Modelled from the spec: one HMAC-SHA256 application. *)
Definition hmac (P : Primitives) (key msg : string) : Eng string :=
  fun log => (inr (hmacSha256 P key msg), (log ++ [Hmac key msg])%list).

(** Modelled from the spec: one SHA-256 application, rendered as hex. *)
Definition sha256 (P : Primitives) (msg : string) : Eng string :=
  fun log => (inr (sha256Hex P msg), (log ++ [Sha256 msg])%list).

(** Modelled from the spec: section 4.2, "fails with InvalidCredentialError
    if the private key is malformed". *)
Definition loadKey (P : Primitives) (c : SigningCredential) : Eng string :=
  fun log =>
    (match parsePrivateKey P (privateKey c) with
     | Some k => inr k
     | None => inl InvalidCredentialError
     end, (log ++ [KeyParse (privateKey c)])%list).

(** Modelled from the spec: the result and the cryptographic record of a
    run that starts with nothing done. *)
Definition run {A} (m : Eng A) : (SigningError + A) * list CryptoOp := m [].

(** *** 4.3 Addressing Resolver *)

(** Modelled from the spec: the [{host, path}] pair [resolve] returns. *)
Record ResolvedAddress : Type := {
  resolvedHost : string;
  resolvedPath : string
}.

(** Modelled from the spec: "[/object]", and "bucket operations (no object)
    always resolve to a path of / regardless of mode". *)
Definition objectSuffix (P : Primitives) (prefix : string)
    (o : option string) : string :=
  match o with
  | Some name => prefix +:+ "/" +:+ encodePath P name
  | None => "/"
  end.

(** Modelled from the spec: [resolve(bucket, object?, mode)] of section 4.3. *)
Definition resolve (P : Primitives) (r : ResourceRef) (mode : AddressingMode)
  : Eng ResolvedAddress :=
  match mode with
  | PathStyle =>
      ok {| resolvedHost := storageEndpoint P;
            resolvedPath := objectSuffix P ("/" +:+ bucketName r) (objectPath r) |}
  | VirtualHostedStyle =>
      ok {| resolvedHost := bucketName r +:+ "." +:+ storageEndpoint P;
            resolvedPath := objectSuffix P "" (objectPath r) |}
  | BoundHostname (Some h) =>
      ok {| resolvedHost := h;
            resolvedPath := objectSuffix P "" (objectPath r) |}
  | BoundHostname None => fail InvalidAddressingError
  end.

(** *** 4.2 Credential Scope Builder *)

(** Modelled from the spec: [CredentialScope] of section 3. *)
Record CredentialScope : Type := {
  scopeDate : string;
  scopeLocation : string;
  scopeService : string;
  scopeTerminator : string
}.

(** Modelled from the spec: [buildScope(timestamp, location, service)]. *)
Definition buildScope (P : Primitives) (timestamp : Z) : CredentialScope :=
  {| scopeDate := formatDate P timestamp;
     scopeLocation := location P;
     scopeService := service P;
     scopeTerminator := "goog4_request" |}.

(** Modelled from the spec: the scope rendered for [X-Goog-Credential]. *)
Definition scopeString (s : CredentialScope) : string :=
  scopeDate s +:+ "/" +:+ scopeLocation s +:+ "/" +:+ scopeService s
    +:+ "/" +:+ scopeTerminator s.

(** Modelled from the spec: the HMAC chain of section 4.2. *)
Definition deriveSigningKey (P : Primitives) (c : SigningCredential)
    (s : CredentialScope) : Eng string :=
  do key <~ loadKey P c;
  do key1 <~ hmac P ("GOOG4" +:+ key) (scopeDate s);
  do key2 <~ hmac P key1 (scopeLocation s);
  do key3 <~ hmac P key2 (scopeService s);
  hmac P key3 (scopeTerminator s).

(** *** 4.1 Canonical query string *)

(** Modelled from the spec: "sorted lexicographically by encoded key (ties
    broken by encoded value)". *)
Definition paramLeb (a b : string * string) : bool :=
  match String.compare a.1 b.1 with
  | Lt => true
  | Eq => String.leb a.2 b.2
  | Gt => false
  end.

(** Modelled from the spec: insertion of one entry into a sorted query. *)
Fixpoint insertParam (p : string * string) (l : list (string * string))
  : list (string * string) :=
  match l with
  | [] => [p]
  | q :: rest => if paramLeb p q then p :: q :: rest else q :: insertParam p rest
  end.

(** Modelled from the spec: the mandatory sort of the canonical query. *)
Definition sortParams (l : list (string * string)) : list (string * string) :=
  foldr insertParam [] l.

(** Modelled from the spec: "keys and values are percent-encoded
    independently then joined key=value", entries joined with an ampersand. *)
Definition canonicalQuery (P : Primitives) (params : list (string * string))
  : string :=
  String.concat "&"
    (map (fun kv => kv.1 +:+ "=" +:+ kv.2)
       (sortParams
          (map (fun kv => (encodeQueryComponent P kv.1,
                           encodeQueryComponent P kv.2)) params))).

(** *** 4.4 Canonical Request and Signature Builder *)

(** Modelled from the spec: the line feed separating canonical-request lines. *)
Definition nl : string := String "010"%char EmptyString.

(** Modelled from the spec: the algorithm name. *)
Definition algorithm : string := "GOOG4-HMAC-SHA256".

(** Modelled from the spec: the name under which the signature is appended. *)
Definition signatureName : string := "X-Goog-Signature".

(** Modelled from the spec: "expiration seconds in (0, 604800]"; anything
    else "fails with ExpirationRangeError". *)
Definition validateExpiration (e : Z) : Eng unit :=
  if (0 <? e) && (e <=? 604800) then ok tt else fail ExpirationRangeError.

(** Modelled from the spec: step 1, the mandatory auth query parameters. *)
Definition authQueryParams (P : Primitives) (c : SigningCredential)
    (scope : CredentialScope) (timestamp e : Z) (signedHeaders : string)
  : list (string * string) :=
  [ ("X-Goog-Algorithm", algorithm);
    ("X-Goog-Credential", clientEmail c +:+ "/" +:+ scopeString scope);
    ("X-Goog-Date", formatTimestamp P timestamp);
    ("X-Goog-Expires", showSeconds P e);
    ("X-Goog-SignedHeaders", signedHeaders) ].

(** Modelled from the spec: the reserved auth parameter names, the ones of
    step 1 and the signature's own. *)
Definition reservedNames (auth : list (string * string)) : list string :=
  (map fst auth ++ [signatureName])%list.

(** Modelled from the spec: a caller parameter bears a reserved name. *)
Definition collides (auth caller : list (string * string)) : bool :=
  existsb (fun kv => existsb (String.eqb kv.1) (reservedNames auth)) caller.

(** Modelled from the spec: step 1, "merged with any caller-supplied extra
    query parameters (caller params never overwrite auth params; a name
    collision is an error)". *)
Definition mergeQueryParams (auth caller : list (string * string))
  : Eng (list (string * string)) :=
  if collides auth caller then fail QueryParamCollisionError
  else ok (auth ++ caller)%list.

(** Modelled from the spec: what [sign] returns. *)
Record Signed : Type := {
  signature : string;
  signedQuery : string
}.

(** Modelled from the spec: [sign(request, credential, resolvedAddress)],
    steps 1 to 7 of section 4.4 behind the expiration check. *)
Definition sign (P : Primitives) (req : SigningRequest)
    (c : SigningCredential) (addr : ResolvedAddress) : Eng Signed :=
  do _ <~ validateExpiration (expirationSeconds req);
  let scope := buildScope P (referenceTimestamp req) in
  let headers :=
    canonicalizeHeaders P (("host", resolvedHost addr) :: extensionHeaders req) in
  do params <~ mergeQueryParams
      (authQueryParams P c scope (referenceTimestamp req)
         (expirationSeconds req) headers.2)
      (extraQueryParams req);
  let query := canonicalQuery P params in
  let canonicalRequest :=
    verb (requestAction req) +:+ nl +:+ resolvedPath addr +:+ nl +:+ query
      +:+ nl +:+ headers.1 +:+ nl +:+ headers.2 +:+ nl +:+ "UNSIGNED-PAYLOAD" in
  do digest <~ sha256 P canonicalRequest;
  let stringToSign :=
    algorithm +:+ nl +:+ formatTimestamp P (referenceTimestamp req) +:+ nl
      +:+ scopeString scope +:+ nl +:+ digest in
  do key <~ deriveSigningKey P c scope;
  do mac <~ hmac P key stringToSign;
  ok {| signature := hexLower P mac; signedQuery := query |}.

(** *** 4.5 Signed URL Assembler *)

(** Modelled from the spec: [assemble(scheme, resolvedAddress, query)]. *)
Definition assemble (s : Scheme) (addr : ResolvedAddress) (signed : Signed)
  : string :=
  scheme_str s +:+ "://" +:+ resolvedHost addr +:+ resolvedPath addr +:+ "?"
    +:+ signedQuery signed +:+ "&" +:+ signatureName +:+ "="
    +:+ signature signed.

(** Modelled from the spec: one URL-signing operation, the resolver feeding
    the signature builder feeding the assembler (section 2). *)
Definition signUrl (P : Primitives) (c : SigningCredential)
    (req : SigningRequest) : Eng string :=
  do addr <~ resolve P (resource req) (addressing req);
  do signed <~ sign P req c addr;
  ok (assemble (urlScheme req) addr signed).

End Engine.

(** ** Predicates and sample data used to state the properties *)

(** The verbs the two dispatch tables have an entry for. *)
Definition recognisedVerb (testCase : V4SignedURLTestCase) : bool :=
  if Js.truthy_str (object testCase)
  then existsb (String.eqb (method testCase)) ["GET"; "POST"; "PUT"; "DELETE"]
  else String.eqb (method testCase) "GET".

(** A test case is turned away at the boundary when its body throws
    without the engine having been called. *)
Definition rejectedAtBoundary (rt : Runtime) (testCase : V4SignedURLTestCase)
    (w : World) : Prop :=
  (signTestCase rt testCase w).1 = None /\
  engineCallsIn (signTestCase rt testCase w).2 = engineCallsIn w.

(** The path-style outcome of [parseUrlStyle]. *)
Definition pathStyleConfig : StyleConfig :=
  {| cname := None; virtualHostedStyle := Some false |}.

(** The partition in closed form. *)
Definition isPolicyOnly (testCase : Entry) : bool :=
  negb (isUrlCase testCase) && isPolicyCase testCase.

Definition startWorld : World :=
  {| clock := {| wall := 1700000000000; fake := None |}; trace := [] |}.

(** A runtime whose engine answers every call with the same URL. *)
Definition sampleRuntime : Runtime :=
  {| Date_parse := fun _ => 1577836800000;
     URL_parse := fun s =>
       if String.eqb s "" then None
       else Some {| origin := "https://storage.googleapis.com";
                    pathname := "/validation-bucket/test.txt";
                    search := "" |};
     querystring_parse := fun _ => [];
     getSignedUrl := fun _ _ _ =>
       Some "https://storage.googleapis.com/validation-bucket/test.txt" |}.

Definition sampleCase : V4SignedURLTestCase :=
  {| description := "Simple GET";
     bucket := "validation-bucket";
     object := Some "test.txt";
     urlStyle := None;
     bucketBoundHostname := None;
     scheme := https;
     headers := None;
     queryParameters := None;
     method := "GET";
     expiration := 600;
     timestamp := "2020-01-01T00:00:00Z";
     expectedUrl := "https://storage.googleapis.com/validation-bucket/test.txt" |}.

Definition withMethod (m : string) (t : V4SignedURLTestCase)
  : V4SignedURLTestCase :=
  {| description := description t; bucket := bucket t; object := object t;
     urlStyle := urlStyle t; bucketBoundHostname := bucketBoundHostname t;
     scheme := scheme t; headers := headers t;
     queryParameters := queryParameters t; method := m;
     expiration := expiration t; timestamp := timestamp t;
     expectedUrl := expectedUrl t |}.

Definition withHostname (style : option UrlStyle) (h : option string)
    (t : V4SignedURLTestCase) : V4SignedURLTestCase :=
  {| description := description t; bucket := bucket t; object := object t;
     urlStyle := style; bucketBoundHostname := h;
     scheme := scheme t; headers := headers t;
     queryParameters := queryParameters t; method := method t;
     expiration := expiration t; timestamp := timestamp t;
     expectedUrl := expectedUrl t |}.

(** Stand-in leaf operations on which the engine can be evaluated; they
    are string bookkeeping, not cryptography. *)
Definition toyPrimitives : Engine.Primitives :=
  {| Engine.hmacSha256 := fun key msg => "hmac(" +:+ key +:+ "," +:+ msg +:+ ")";
     Engine.sha256Hex := fun msg => "sha256(" +:+ msg +:+ ")";
     Engine.hexLower := fun s => s;
     Engine.parsePrivateKey := fun k => if String.eqb k "" then None else Some k;
     Engine.encodePath := fun s => s;
     Engine.encodeQueryComponent := fun s => s;
     Engine.canonicalizeHeaders := fun hs =>
       (String.concat "" (map (fun kv => kv.1 +:+ ":" +:+ kv.2 +:+ Engine.nl) hs),
        String.concat ";" (map fst hs));
     Engine.formatDate := fun _ => "20200101";
     Engine.formatTimestamp := fun _ => "20200101T000000Z";
     Engine.showSeconds := fun e => NilZero.string_of_int (Z.to_int e);
     Engine.storageEndpoint := "storage.googleapis.com";
     Engine.location := "auto";
     Engine.service := "storage" |}.

Definition sampleCredential : Engine.SigningCredential :=
  {| Engine.issuerId := "issuer";
     Engine.privateKey := "private-key";
     Engine.clientEmail := "test-iam-credentials@dummy-project-id.iam.gserviceaccount.com" |}.

Definition sampleRequest (e : Z) (extra : list (string * string))
    (mode : Engine.AddressingMode) : Engine.SigningRequest :=
  {| Engine.resource := {| Engine.bucketName := "validation-bucket";
                           Engine.objectPath := Some "test.txt" |};
     Engine.urlScheme := https;
     Engine.requestAction := Engine.Read;
     Engine.expirationSeconds := e;
     Engine.referenceTimestamp := 1577836800000;
     Engine.extensionHeaders := [];
     Engine.extraQueryParams := extra;
     Engine.addressing := mode |}.

Definition sampleAddress : Engine.ResolvedAddress :=
  {| Engine.resolvedHost := "storage.googleapis.com";
     Engine.resolvedPath := "/validation-bucket/test.txt" |}.

(** The names a caller may not use for an extra query parameter. *)
Definition reservedAuthNames : list string :=
  [ "X-Goog-Algorithm"; "X-Goog-Credential"; "X-Goog-Date"; "X-Goog-Expires";
    "X-Goog-SignedHeaders"; "X-Goog-Signature" ].

Definition usesReservedName (caller : list (string * string)) : bool :=
  existsb (fun kv => existsb (String.eqb kv.1) reservedAuthNames) caller.

Definition sampleBoth : Entry :=
  [ ("expectedUrl", Js.JStr "https://storage.googleapis.com/b/o");
    ("policyInput", Js.JObj []) ].

Definition sampleFixture : list Entry :=
  [ sampleBoth; [("policyInput", Js.JObj [])];
    [("description", Js.JStr "neither")] ].

Definition sampleQuery : QsObject :=
  [ ("X-Goog-Algorithm", QsStr "GOOG4-HMAC-SHA256");
    ("X-Goog-Expires", QsStr "600") ].

Definition sampleQuerySwapped : QsObject :=
  [ ("X-Goog-Expires", QsStr "600");
    ("X-Goog-Algorithm", QsStr "GOOG4-HMAC-SHA256") ].

(** ** Loading the fixture (source lines 83-99)

    The fixture is whatever [JSON.parse] returned; the loop runs at module
    load, so an exception there ([None]) leaves no suite registered. *)

(** [JSON.parse(testFile).signingV4Tests]: the read throws on [null] and
    gives [undefined] on every other value that is not an object. *)
Definition signingV4Tests (root : Js.Json) : option (option Js.Json) :=
  match root with
  | Js.JNull => None
  | Js.JObj fields => Some (Js.get fields "signingV4Tests")
  | _ => Some None
  end.

(** One iteration of the loop on an arbitrary element: the property reads
    throw on [null], find nothing on a primitive or an array, and are
    [partitionStep] on an object. *)
Definition partitionItem (acc : Partition) (item : Js.Json) : option Partition :=
  match item with
  | Js.JNull => None
  | Js.JObj fields => Some (partitionStep acc fields)
  | _ => Some acc
  end.

Fixpoint partitionItems (items : list Js.Json) (acc : Partition)
  : option Partition :=
  match items with
  | [] => Some acc
  | item :: rest =>
      match partitionItem acc item with
      | Some acc' => partitionItems rest acc'
      | None => None
      end
  end.

Definition emptyPartition : Partition :=
  {| v4SignedUrlCases := []; v4SignedPolicyCases := [] |}.

(** [for (const testCase of testCases)] over the parsed file: an array is
    iterated element by element, a string character by character (no
    character has either property), anything else is not iterable. *)
Definition loadFixture (root : Js.Json) : option Partition :=
  match signingV4Tests root with
  | Some (Some (Js.JArr items)) => partitionItems items emptyPartition
  | Some (Some (Js.JStr _)) => Some emptyPartition
  | _ => None
  end.

(** The object elements of an array, in order. *)
Definition objectsOf (items : list Js.Json) : list Entry :=
  omap (fun item => match item with Js.JObj fields => Some fields | _ => None end)
       items.

Definition isNull (item : Js.Json) : bool :=
  match item with Js.JNull => true | _ => false end.

(** An entry the loop pushes to neither array. *)
Definition isDropped (testCase : Entry) : bool :=
  negb (isUrlCase testCase) && negb (isPolicyCase testCase).

(** The three assertions of a URL test, in source order. *)
Definition assertionsOf (rt : Runtime) (expected actual : Url) : list Event :=
  [ EvStrictEqual (origin actual) (origin expected);
    EvStrictEqual (pathname actual) (pathname expected);
    EvDeepStrictEqual (querystring_parse rt (search actual))
                      (querystring_parse rt (search expected)) ].

(** How many of the three assertions are reached: each one that fails
    throws, so the later ones are not executed. *)
Definition assertionsRun (expected actual : Url) : nat :=
  if bool_decide (origin actual = origin expected) then
    if bool_decide (pathname actual = pathname expected) then 3%nat else 2%nat
  else 1%nat.

(** The world once the clock is faked and the engine has been called. *)
Definition afterSigning (rt : Runtime) (t : V4SignedURLTestCase) (w : World)
  : World :=
  {| clock := {| wall := wall (clock w);
                 fake := Some (Date_parse rt (timestamp t)) |};
     trace := trace w ++
              [EvUseFakeTimers (Date_parse rt (timestamp t));
               EvGetSignedUrl (target t)
                 (config (Date_parse rt (timestamp t)) t)] |}.

(** A runtime whose engine rejects every call. *)
Definition rejectingRuntime : Runtime :=
  {| Date_parse := Date_parse sampleRuntime;
     URL_parse := URL_parse sampleRuntime;
     querystring_parse := querystring_parse sampleRuntime;
     getSignedUrl := fun _ _ _ => None |}.

(** A runtime whose engine signs for another host than the expected one. *)
Definition strayRuntime : Runtime :=
  {| Date_parse := Date_parse sampleRuntime;
     URL_parse := fun s =>
       Some {| origin := if String.eqb s "stray" then "https://elsewhere.test"
                         else "https://storage.googleapis.com";
               pathname := "/validation-bucket/test.txt";
               search := "" |};
     querystring_parse := querystring_parse sampleRuntime;
     getSignedUrl := fun _ _ _ => Some "stray" |}.

(** The three addressing modes a result of [parseUrlStyle] can select:
    bound hostname is a defined cname, virtual-hosted style is
    virtualHostedStyle true, path style is virtualHostedStyle false with
    no cname. *)
Definition selectsBoundHostname (r : StyleConfig) : bool :=
  match cname r with Some _ => true | None => false end.

Definition selectsVirtualHosted (r : StyleConfig) : bool :=
  match virtualHostedStyle r with Some true => true | _ => false end.

Definition selectsPathStyle (r : StyleConfig) : bool :=
  match virtualHostedStyle r, cname r with
  | Some false, None => true
  | _, _ => false
  end.

(** How many of the three modes a result selects. *)
Definition modesSelected (r : StyleConfig) : nat :=
  (Nat.b2n (selectsBoundHostname r) + Nat.b2n (selectsVirtualHosted r)
   + Nat.b2n (selectsPathStyle r))%nat.

(** The integers on which the double arithmetic of JavaScript is exact. *)
Definition safeInteger (z : Z) : Prop := - 2 ^ 53 <= z <= 2 ^ 53.

(** Every entry the loop keeps has a string description, as [it] demands
    of a title. *)
Definition titlesAreStrings (fixture : list Entry) : Prop :=
  forall e, In e fixture -> isDropped e = false ->
            exists s, Js.get e "description" = Some (Js.JStr s).

Definition describedFixture : list Entry :=
  [ [ ("description", Js.JStr "Simple GET");
      ("expectedUrl", Js.JStr "https://storage.googleapis.com/b/o") ];
    [ ("description", Js.JStr "POST Policy Simple");
      ("policyInput", Js.JObj []) ] ].

(** * Properties *)

(** ** Dispatch *)

Lemma action_file (t : V4SignedURLTestCase) :
  Js.truthy_str (object t) = true ->
  action t = Js.member FileAction (method t).
Proof. unfold action. intros ->. reflexivity. Qed.

Lemma action_bucket (t : V4SignedURLTestCase) :
  Js.truthy_str (object t) = false ->
  action t = Js.member BucketAction (method t).
Proof. unfold action. intros ->. reflexivity. Qed.

Lemma eqb_neq_false (a b : string) : a <> b -> String.eqb a b = false.
Proof. intros H. apply String.eqb_neq. exact H. Qed.

Lemma own_FileAction_unrecognised (m : string) :
  existsb (String.eqb m) ["GET"; "POST"; "PUT"; "DELETE"] = false ->
  Js.own FileAction m = None.
Proof.
  cbn [existsb]. intros H.
  repeat (apply orb_false_elim in H; destruct H as [? H]).
  unfold FileAction. cbn [Js.own].
  rewrite !(String.eqb_sym _ m).
  repeat match goal with E : String.eqb m _ = false |- _ => rewrite E; clear E end.
  reflexivity.
Qed.

Lemma own_BucketAction_unrecognised (m : string) :
  String.eqb m "GET" = false -> Js.own BucketAction m = None.
Proof.
  intros H. unfold BucketAction. cbn [Js.own].
  rewrite String.eqb_sym, H. reflexivity.
Qed.

Lemma member_no_own (literal : list (string * string)) (m : string) :
  Js.own literal m = None ->
  Js.member literal m = Js.Undefined \/ Js.member literal m = Js.Inherited m.
Proof.
  unfold Js.member. intros ->.
  destruct (existsb _ _); [right | left]; reflexivity.
Qed.

(** The trace of the signing step: the clock is faked, then the engine is
    called with the configuration built from the test case. *)
Lemma signTestCase_trace (rt : Runtime) (t : V4SignedURLTestCase) (w : World) :
  trace (signTestCase rt t w).2 =
  (trace w ++ [EvUseFakeTimers (Date_parse rt (timestamp t));
               EvGetSignedUrl (target t)
                 (config (Date_parse rt (timestamp t)) t)])%list.
Proof.
  unfold signTestCase, callGetSignedUrl, engine, useFakeTimers, emit.
  unfold mbind, Test_bind, bind. cbn.
  rewrite <- app_assoc. reflexivity.
Qed.

(** C1, as stated, fails: a file test case whose method is PATCH has no
    entry in the dispatch table, its action is [undefined], and the harness
    still calls the engine with it instead of turning the case away. *)
Lemma C1_unrecognised_verb_reaches_engine :
  recognisedVerb (withMethod "PATCH" sampleCase) = false /\
  action (withMethod "PATCH" sampleCase) = Js.Undefined /\
  engineCallsIn
    (signTestCase sampleRuntime (withMethod "PATCH" sampleCase) startWorld).2
  = [EvGetSignedUrl (FileTarget "validation-bucket" "test.txt")
       (config 1577836800000 (withMethod "PATCH" sampleCase))] /\
  ~ rejectedAtBoundary sampleRuntime (withMethod "PATCH" sampleCase) startWorld.
Proof.
  split; [reflexivity | split; [reflexivity | split; [reflexivity |]]].
  intros [_ Hcalls]. vm_compute in Hcalls. discriminate Hcalls.
Qed.

(** C1, amended: with a truthy object GET maps to read, POST to resumable,
    PUT to write and DELETE to delete; without one GET maps to list; for
    every other verb the lookup yields no action of the table (undefined,
    or the member inherited from Object.prototype under that name) and the
    harness calls the engine with that value all the same. *)
Theorem C1_dispatch (rt : Runtime) (t : V4SignedURLTestCase) (w : World) :
  (Js.truthy_str (object t) = true ->
     (method t = "GET" -> action t = Js.Own "read") /\
     (method t = "POST" -> action t = Js.Own "resumable") /\
     (method t = "PUT" -> action t = Js.Own "write") /\
     (method t = "DELETE" -> action t = Js.Own "delete")) /\
  (Js.truthy_str (object t) = false ->
     method t = "GET" -> action t = Js.Own "list") /\
  (recognisedVerb t = false ->
     (action t = Js.Undefined \/ action t = Js.Inherited (method t)) /\
     engineCallsIn (signTestCase rt t w).2 =
       (engineCallsIn w ++
        [EvGetSignedUrl (target t) (config (Date_parse rt (timestamp t)) t)])%list).
Proof.
  split; [| split].
  - intros Hobj. rewrite (action_file t Hobj).
    repeat split; intros ->; reflexivity.
  - intros Hobj Hm. rewrite (action_bucket t Hobj), Hm. reflexivity.
  - intros Hrec. split.
    + unfold recognisedVerb in Hrec.
      destruct (Js.truthy_str (object t)) eqn:Hobj.
      * rewrite (action_file t Hobj).
        apply member_no_own, own_FileAction_unrecognised, Hrec.
      * rewrite (action_bucket t Hobj).
        apply member_no_own, own_BucketAction_unrecognised, Hrec.
    + unfold engineCallsIn. rewrite signTestCase_trace.
      rewrite List.filter_app. reflexivity.
Qed.

Lemma C1_dispatch_witness :
  action sampleCase = Js.Own "read" /\
  (action (withMethod "PATCH" sampleCase) = Js.Undefined \/
   action (withMethod "PATCH" sampleCase) = Js.Inherited "PATCH").
Proof.
  split.
  - exact (proj1 (proj1 (C1_dispatch sampleRuntime sampleCase startWorld)
                    eq_refl) eq_refl).
  - exact (proj1 (proj2 (proj2 (C1_dispatch sampleRuntime
                    (withMethod "PATCH" sampleCase) startWorld)) eq_refl)).
Defined.

(** ** Addressing style *)

(** C5, as stated, fails: BUCKET_BOUND_HOSTNAME without a domain gives a
    result with no cname and an undefined virtualHostedStyle, which is
    none of the three modes, so not every input selects exactly one. *)
Lemma C5_bound_style_without_domain_selects_no_mode :
  parseUrlStyle (Some BUCKET_BOUND_HOSTNAME) None
    = {| cname := None; virtualHostedStyle := None |} /\
  modesSelected (parseUrlStyle (Some BUCKET_BOUND_HOSTNAME) None) = 0%nat /\
  ~ (forall style dom, modesSelected (parseUrlStyle style dom) = 1%nat).
Proof.
  split; [reflexivity | split; [reflexivity |]].
  intros H. specialize (H (Some BUCKET_BOUND_HOSTNAME) None). discriminate H.
Qed.

(** C5, amended: [parseUrlStyle] never returns a defined cname together
    with virtualHostedStyle true, and every style other than
    BUCKET_BOUND_HOSTNAME and VIRTUAL_HOSTED_STYLE, the absent one
    included, gives the path-style result (virtualHostedStyle false and no
    cname); the result selects exactly one of the three modes for every
    input except BUCKET_BOUND_HOSTNAME with an undefined domain, for which
    it selects none. *)
Theorem C5_one_mode (style : option UrlStyle) (dom : option string) :
  ~ (is_Some (cname (parseUrlStyle style dom)) /\
     virtualHostedStyle (parseUrlStyle style dom) = Some true) /\
  (style <> Some BUCKET_BOUND_HOSTNAME ->
   style <> Some VIRTUAL_HOSTED_STYLE ->
   parseUrlStyle style dom = pathStyleConfig) /\
  (~ (style = Some BUCKET_BOUND_HOSTNAME /\ dom = None) ->
   modesSelected (parseUrlStyle style dom) = 1%nat) /\
  (style = Some BUCKET_BOUND_HOSTNAME -> dom = None ->
   modesSelected (parseUrlStyle style dom) = 0%nat).
Proof.
  split; [| split; [| split]].
  - destruct style as [[]|]; cbn; intros [[x Hx] Hv]; congruence.
  - intros Hb Hv. destruct style as [[]|]; try reflexivity; congruence.
  - intros Hhost. destruct style as [[]|]; try reflexivity.
    destruct dom as [d|]; [reflexivity |].
    exfalso. apply Hhost. split; reflexivity.
  - intros -> ->. reflexivity.
Qed.

Lemma C5_one_mode_witness :
  parseUrlStyle None (Some "https://mydomain.tld") = pathStyleConfig /\
  parseUrlStyle (Some PATH_STYLE) (Some "https://mydomain.tld") = pathStyleConfig /\
  modesSelected
    (parseUrlStyle (Some BUCKET_BOUND_HOSTNAME) (Some "https://mydomain.tld"))
  = 1%nat /\
  modesSelected (parseUrlStyle (Some BUCKET_BOUND_HOSTNAME) None) = 0%nat.
Proof.
  split; [| split; [| split]].
  - apply (proj1 (proj2 (C5_one_mode None (Some "https://mydomain.tld"))));
      discriminate.
  - apply (proj1 (proj2 (C5_one_mode (Some PATH_STYLE)
                           (Some "https://mydomain.tld"))));
      discriminate.
  - apply (proj1 (proj2 (proj2 (C5_one_mode (Some BUCKET_BOUND_HOSTNAME)
                                  (Some "https://mydomain.tld"))))).
    intros [_ Hdom]. discriminate Hdom.
  - apply (proj2 (proj2 (proj2 (C5_one_mode (Some BUCKET_BOUND_HOSTNAME) None))));
      reflexivity.
Defined.

Lemma domain_truthy (t : V4SignedURLTestCase) (h : string) :
  bucketBoundHostname t = Some h -> h <> "" ->
  domain t = Some (scheme_str (scheme t) +:+ "://" +:+ h).
Proof.
  intros Hh Hne. unfold domain. rewrite Hh. cbn.
  rewrite (eqb_neq_false h "" Hne). reflexivity.
Qed.

Lemma domain_absent (t : V4SignedURLTestCase) :
  bucketBoundHostname t = None -> domain t = None.
Proof. unfold domain. intros ->. reflexivity. Qed.

Lemma cname_is_domain_or_absent (t : V4SignedURLTestCase) :
  cname (styleOf t) =
  match urlStyle t with
  | Some BUCKET_BOUND_HOSTNAME => domain t
  | _ => None
  end.
Proof. unfold styleOf. destruct (urlStyle t) as [[]|]; reflexivity. Qed.

(** C6, as stated, fails: a path-style test case that carries a
    bucketBoundHostname hands no cname to the engine. *)
Lemma C6_hostname_without_bound_style :
  bucketBoundHostname
    (withHostname (Some PATH_STYLE) (Some "mydomain.tld") sampleCase)
    = Some "mydomain.tld" /\
  GetSignedUrlConfig.cname
    (config 0 (withHostname (Some PATH_STYLE) (Some "mydomain.tld") sampleCase))
    <> Some "https://mydomain.tld".
Proof. split; [reflexivity | discriminate]. Qed.

(** C6, amended: for every test case whose urlStyle is
    BUCKET_BOUND_HOSTNAME and whose bucketBoundHostname is non-empty, the
    cname passed to the engine is scheme, "://" and the hostname exactly as
    given; for every test case without a bucketBoundHostname no cname is
    supplied. *)
Theorem C6_cname (NOW : Z) (t : V4SignedURLTestCase) :
  (forall h, bucketBoundHostname t = Some h -> h <> "" ->
             urlStyle t = Some BUCKET_BOUND_HOSTNAME ->
             GetSignedUrlConfig.cname (config NOW t)
             = Some (scheme_str (scheme t) +:+ "://" +:+ h)) /\
  (bucketBoundHostname t = None ->
   GetSignedUrlConfig.cname (config NOW t) = None).
Proof.
  cbn [config GetSignedUrlConfig.cname]. rewrite cname_is_domain_or_absent.
  split.
  - intros h Hh Hne ->. apply domain_truthy; assumption.
  - intros Hh. rewrite (domain_absent t Hh).
    destruct (urlStyle t) as [[]|]; reflexivity.
Qed.

Lemma C6_cname_witness :
  GetSignedUrlConfig.cname
    (config 0 (withHostname (Some BUCKET_BOUND_HOSTNAME) (Some "mydomain.tld")
                 sampleCase))
  = Some "https://mydomain.tld" /\
  GetSignedUrlConfig.cname (config 0 sampleCase) = None.
Proof.
  split.
  - apply (proj1 (C6_cname 0 (withHostname (Some BUCKET_BOUND_HOSTNAME)
                                (Some "mydomain.tld") sampleCase))
             "mydomain.tld"); [reflexivity | discriminate | reflexivity].
  - apply (proj2 (C6_cname 0 sampleCase)). reflexivity.
Defined.

(** ** Fixture partition *)

Lemma partition_from (testCases : list Entry) (acc : Partition) :
  fold_left partitionStep testCases acc =
  {| v4SignedUrlCases :=
       v4SignedUrlCases acc ++ List.filter isUrlCase testCases;
     v4SignedPolicyCases :=
       v4SignedPolicyCases acc ++ List.filter isPolicyOnly testCases |}.
Proof.
  revert acc. induction testCases as [|e rest IH]; intros acc;
    cbn [fold_left List.filter].
  - rewrite !app_nil_r. destruct acc; reflexivity.
  - rewrite IH. unfold partitionStep, isPolicyOnly.
    destruct (isUrlCase e); cbn [negb andb v4SignedUrlCases v4SignedPolicyCases].
    + rewrite <- app_assoc. reflexivity.
    + destruct (isPolicyCase e); cbn [v4SignedUrlCases v4SignedPolicyCases].
      * rewrite <- app_assoc. reflexivity.
      * reflexivity.
Qed.

(** The two arrays are the two filters of the fixture, in fixture order. *)
Lemma partition_closed_form (testCases : list Entry) :
  partitionCases testCases =
  {| v4SignedUrlCases := List.filter isUrlCase testCases;
     v4SignedPolicyCases := List.filter isPolicyOnly testCases |}.
Proof. unfold partitionCases. rewrite partition_from. reflexivity. Qed.

Lemma in_urlCases (testCases : list Entry) (e : Entry) :
  In e (v4SignedUrlCases (partitionCases testCases)) <->
  In e testCases /\ isUrlCase e = true.
Proof. rewrite partition_closed_form. cbn. apply List.filter_In. Qed.

Lemma in_policyCases (testCases : list Entry) (e : Entry) :
  In e (v4SignedPolicyCases (partitionCases testCases)) <->
  In e testCases /\ isUrlCase e = false /\ isPolicyCase e = true.
Proof.
  rewrite partition_closed_form. cbn. rewrite List.filter_In.
  unfold isPolicyOnly. rewrite andb_true_iff, negb_true_iff. reflexivity.
Qed.

(** C10: an entry with a truthy expectedUrl is a URL case and not a policy
    case (also when it carries a policyInput); an entry without a truthy
    expectedUrl and with a truthy policyInput is a policy case only; an
    entry with neither is in no list; no entry is in both lists. *)
Theorem C10_partition (testCases : list Entry) (e : Entry) :
  In e testCases ->
  (isUrlCase e = true ->
     In e (v4SignedUrlCases (partitionCases testCases)) /\
     ~ In e (v4SignedPolicyCases (partitionCases testCases))) /\
  (isUrlCase e = false -> isPolicyCase e = true ->
     In e (v4SignedPolicyCases (partitionCases testCases)) /\
     ~ In e (v4SignedUrlCases (partitionCases testCases))) /\
  (isUrlCase e = false -> isPolicyCase e = false ->
     ~ In e (v4SignedUrlCases (partitionCases testCases)) /\
     ~ In e (v4SignedPolicyCases (partitionCases testCases))) /\
  ~ (In e (v4SignedUrlCases (partitionCases testCases)) /\
     In e (v4SignedPolicyCases (partitionCases testCases))).
Proof.
  intros Hin. rewrite in_urlCases, in_policyCases.
  repeat split; try assumption; intros; intuition congruence.
Qed.

Lemma C10_partition_witness :
  In sampleBoth (v4SignedUrlCases (partitionCases sampleFixture)) /\
  ~ In sampleBoth (v4SignedPolicyCases (partitionCases sampleFixture)).
Proof.
  apply (proj1 (C10_partition sampleFixture sampleBoth (or_introl eq_refl))).
  reflexivity.
Defined.

(** ** The skipped policy suite *)

Lemma policySuite_skipped (cases : list Entry) (w : World) :
  (runSuite (policySuite cases) w).2 = w.
Proof. reflexivity. Qed.

Lemma runTests_policy (cases : list Entry) (w : World) :
  (runTests (tests (policySuite cases)) w).2 = w.
Proof.
  induction cases as [|c rest IH]; [reflexivity |].
  cbn in *. destruct (runTests _ w) as [vs w'] eqn:E.
  cbn in *. exact IH.
Qed.

(** C9: for every policy test case of the fixture the harness executes no
    assertion: the policy suite is skipped, so running it leaves the world
    as it was (no assertion, no engine call) and reports every test as
    pending; and the test body is empty, so it would assert nothing even
    if the suite were run. *)
Theorem C9_policy_suite_asserts_nothing (fixture : list Entry) (w : World) :
  skipped (policySuite (v4SignedPolicyCases (partitionCases fixture))) = true /\
  (runSuite (policySuite (v4SignedPolicyCases (partitionCases fixture))) w).2 = w /\
  Forall (fun r => r.2 = Pending)
    (runSuite (policySuite (v4SignedPolicyCases (partitionCases fixture))) w).1 /\
  Forall (fun t => body t w = (Some tt, w))
    (tests (policySuite (v4SignedPolicyCases (partitionCases fixture)))) /\
  assertionsIn
    (runTests (tests (policySuite (v4SignedPolicyCases (partitionCases fixture)))) w).2
  = assertionsIn w.
Proof.
  split; [reflexivity | split; [reflexivity | split; [| split]]].
  - cbn. apply Forall_forall. intros r Hr.
    apply list_elem_of_In, in_map_iff in Hr. destruct Hr as [t [<- _]]. reflexivity.
  - cbn. apply Forall_forall. intros t Ht.
    apply list_elem_of_In, in_map_iff in Ht. destruct Ht as [c [<- _]]. reflexivity.
  - rewrite runTests_policy. reflexivity.
Qed.

(** ** Structural comparison of URLs *)

Lemma qsMap_lookup (o : QsObject) (k : string) : qsMap o !! k = qsGet o k.
Proof.
  unfold qsMap. induction o as [|[k' v] rest IH]; cbn [list_to_map foldr qsGet].
  - apply lookup_empty.
  - cbn. destruct (String.eqb k' k) eqn:E.
    + apply String.eqb_eq in E. subst. apply lookup_insert_eq.
    + apply String.eqb_neq in E. rewrite lookup_insert_ne by exact E. exact IH.
Qed.

Lemma qsGet_bound (o : QsObject) (k : string) (v : QsValue) :
  qsGet o k = Some v -> exists v', In (k, v') o.
Proof.
  induction o as [|[k' v'] rest IH]; cbn [qsGet]; [discriminate |].
  destruct (String.eqb k' k) eqn:E.
  - apply String.eqb_eq in E. subst. intros _. exists v'. left. reflexivity.
  - intros H. destruct (IH H) as [x Hx]. exists x. right. exact Hx.
Qed.

Lemma qsSubObject_spec (a b : QsObject) :
  qsSubObject a b = true <->
  forall k v, In (k, v) a -> qsGet a k = qsGet b k.
Proof.
  unfold qsSubObject. rewrite forallb_forall. split.
  - intros H k v Hin. specialize (H (k, v) Hin). cbn in H.
    apply bool_decide_eq_true in H. exact H.
  - intros H [k v] Hin. cbn. apply bool_decide_eq_true. exact (H k v Hin).
Qed.

(** [assert.deepStrictEqual] accepts exactly the pairs of objects that
    denote the same mapping. *)
Lemma deepStrictEqual_spec (a b : QsObject) :
  deepStrictEqual a b = true <-> qsMap a = qsMap b.
Proof.
  unfold deepStrictEqual. rewrite andb_true_iff, !qsSubObject_spec. split.
  - intros [Hab Hba]. apply map_eq. intros k. rewrite !qsMap_lookup.
    destruct (qsGet a k) as [v|] eqn:Ea.
    + destruct (qsGet_bound a k v Ea) as [v' Hin].
      rewrite <- (Hab k v' Hin). symmetry. exact Ea.
    + destruct (qsGet b k) as [v|] eqn:Eb; [| reflexivity].
      destruct (qsGet_bound b k v Eb) as [v' Hin].
      pose proof (Hba k v' Hin) as H. rewrite Ea, Eb in H. discriminate H.
  - intros Heq.
    assert (Hk : forall k, qsGet a k = qsGet b k).
    { intros k. rewrite <- !qsMap_lookup, Heq. reflexivity. }
    split; intros k v _; [| symmetry]; apply Hk.
Qed.

(** Reordering the keys of an object does not change the mapping. *)
Lemma qsMap_perm (a a' : QsObject) :
  NoDup a.*1 -> a ≡ₚ a' -> qsMap a = qsMap a'.
Proof. intros Hnd Hp. unfold qsMap. apply list_to_map_proper; assumption. Qed.

Lemma deepStrictEqual_perm (a a' b : QsObject) :
  NoDup a.*1 -> a ≡ₚ a' -> deepStrictEqual a' b = deepStrictEqual a b.
Proof.
  intros Hnd Hp. apply eq_true_iff_eq.
  rewrite !deepStrictEqual_spec, (qsMap_perm a a' Hnd Hp). reflexivity.
Qed.

(** Under the fake clock the engine is called at the test case's own
    timestamp. *)
Lemma signTestCase_result (rt : Runtime) (t : V4SignedURLTestCase) (w : World) :
  (signTestCase rt t w).1 =
  getSignedUrl rt (Date_parse rt (timestamp t)) (target t)
    (config (Date_parse rt (timestamp t)) t).
Proof.
  unfold signTestCase, callGetSignedUrl, engine, useFakeTimers, emit.
  unfold mbind, Test_bind, bind. cbn. reflexivity.
Qed.

Lemma checkUrl_passes (rt : Runtime) (expectedUrl signedUrl : string) (w : World) :
  (checkUrl rt expectedUrl signedUrl w).1 = Some tt <->
  exists expected actual,
    URL_parse rt expectedUrl = Some expected /\
    URL_parse rt signedUrl = Some actual /\
    origin actual = origin expected /\
    pathname actual = pathname expected /\
    qsMap (querystring_parse rt (search actual))
    = qsMap (querystring_parse rt (search expected)).
Proof.
  unfold checkUrl, assert_strictEqual, assert_deepStrictEqual, liftOption, emit.
  unfold mbind, Test_bind, bind, mret, Test_ret, ret, throw.
  destruct (URL_parse rt expectedUrl) as [e|]; cbn;
    [| split; [discriminate | intros (? & ? & ? & _); discriminate]].
  destruct (URL_parse rt signedUrl) as [a|]; cbn;
    [| split; [discriminate | intros (? & ? & _ & ? & _); discriminate]].
  destruct (bool_decide (origin a = origin e)) eqn:Eo; cbn.
  2:{ apply bool_decide_eq_false in Eo. split; [discriminate |].
      intros (? & ? & [= <-] & [= <-] & ? & _). contradiction. }
  apply bool_decide_eq_true in Eo.
  destruct (bool_decide (pathname a = pathname e)) eqn:Ep; cbn.
  2:{ apply bool_decide_eq_false in Ep. split; [discriminate |].
      intros (? & ? & [= <-] & [= <-] & _ & ? & _). contradiction. }
  apply bool_decide_eq_true in Ep.
  destruct (deepStrictEqual _ _) eqn:Ed; cbn.
  - split; [| reflexivity]. intros _. exists e, a.
    apply deepStrictEqual_spec in Ed. auto.
  - split; [discriminate |].
    intros (? & ? & [= <-] & [= <-] & _ & _ & Hd).
    apply deepStrictEqual_spec in Hd. rewrite Ed in Hd. discriminate.
Qed.

(** C3: a URL test passes exactly when the engine produced a URL, both
    URLs parse, their origins are equal, their pathnames are equal and
    their query strings, parsed, denote the same mapping; the comparison
    of the parsed objects does not depend on the order of their keys. *)
Theorem C3_structural_comparison (rt : Runtime) (t : V4SignedURLTestCase)
    (w : World) :
  ((urlTest rt t w).1 = Some tt <->
   exists signedUrl expected actual,
     getSignedUrl rt (Date_parse rt (timestamp t)) (target t)
       (config (Date_parse rt (timestamp t)) t) = Some signedUrl /\
     URL_parse rt (expectedUrl t) = Some expected /\
     URL_parse rt signedUrl = Some actual /\
     origin actual = origin expected /\
     pathname actual = pathname expected /\
     qsMap (querystring_parse rt (search actual))
     = qsMap (querystring_parse rt (search expected))) /\
  (forall a a' b : QsObject,
     NoDup a.*1 -> a ≡ₚ a' -> deepStrictEqual a' b = deepStrictEqual a b).
Proof.
  split; [| exact deepStrictEqual_perm].
  unfold urlTest. unfold mbind at 1, Test_bind at 1, bind at 1.
  pose proof (signTestCase_result rt t w) as Hs.
  destruct (signTestCase rt t w) as [[u|] w1]; cbn in Hs; rewrite <- Hs.
  2:{ cbn. split; [discriminate | intros (? & ? & ? & ? & _); discriminate]. }
  unfold mbind, Test_bind, bind.
  pose proof (checkUrl_passes rt (expectedUrl t) u w1) as Hc.
  destruct (checkUrl rt (expectedUrl t) u w1) as [[[]|] w2]; cbn in Hc |- *.
  - split; [| reflexivity]. intros _.
    destruct (proj1 Hc eq_refl) as (e & a & H). exists u, e, a. tauto.
  - split; [discriminate |]. intros (u' & e & a & [= <-] & H).
    apply Hc. exists e, a. exact H.
Qed.

Lemma C3_structural_comparison_witness :
  deepStrictEqual sampleQuerySwapped sampleQuery
  = deepStrictEqual sampleQuery sampleQuery.
Proof.
  apply (proj2 (C3_structural_comparison sampleRuntime sampleCase startWorld)).
  - apply (bool_decide_unpack _). vm_compute. reflexivity.
  - apply perm_swap.
Defined.

(** ** The engine: validation order and the cryptographic record *)

Section EngineFacts.

Import Engine.

Variable P : Primitives.

Lemma validateExpiration_inside (e : Z) :
  0 < e <= 604800 -> validateExpiration e = ok tt.
Proof.
  intros [H1 H2]. unfold validateExpiration.
  apply Z.ltb_lt in H1. apply Z.leb_le in H2. rewrite H1, H2. reflexivity.
Qed.

Lemma validateExpiration_outside (e : Z) :
  ~ (0 < e <= 604800) -> validateExpiration e = fail ExpirationRangeError.
Proof.
  intros H. unfold validateExpiration.
  destruct (0 <? e) eqn:H1; destruct (e <=? 604800) eqn:H2; try reflexivity.
  apply Z.ltb_lt in H1. apply Z.leb_le in H2. exfalso. apply H. lia.
Qed.

(** An out-of-range expiration ends [sign] before anything is recorded. *)
Lemma sign_outside (req : SigningRequest) (c : SigningCredential)
    (addr : ResolvedAddress) (log : list CryptoOp) :
  ~ (0 < expirationSeconds req <= 604800) ->
  sign P req c addr log = (inl ExpirationRangeError, log).
Proof.
  intros H. unfold sign. rewrite (validateExpiration_outside _ H). reflexivity.
Qed.

Lemma collides_auth (c : SigningCredential) (scope : CredentialScope)
    (ts e : Z) (signedHeaders : string) (caller : list (string * string)) :
  collides (authQueryParams P c scope ts e signedHeaders) caller
  = usesReservedName caller.
Proof. reflexivity. Qed.

(** With the expiration in range, a reserved name among the caller's
    parameters ends [sign] before anything is recorded. *)
Lemma sign_collision (req : SigningRequest) (c : SigningCredential)
    (addr : ResolvedAddress) (log : list CryptoOp) :
  0 < expirationSeconds req <= 604800 ->
  usesReservedName (extraQueryParams req) = true ->
  sign P req c addr log = (inl QueryParamCollisionError, log).
Proof.
  intros He Hc. unfold sign. rewrite (validateExpiration_inside _ He).
  unfold andThen at 1, ok at 1. unfold andThen at 1.
  unfold mergeQueryParams. rewrite collides_auth, Hc. reflexivity.
Qed.

(** A request that passes every validation is signed. *)
Lemma sign_succeeds (req : SigningRequest) (c : SigningCredential)
    (addr : ResolvedAddress) (log : list CryptoOp) :
  0 < expirationSeconds req <= 604800 ->
  usesReservedName (extraQueryParams req) = false ->
  is_Some (parsePrivateKey P (privateKey c)) ->
  exists s, (sign P req c addr log).1 = inr s.
Proof.
  intros He Hc [k Hk]. unfold sign. rewrite (validateExpiration_inside _ He).
  unfold andThen at 1, ok at 1. unfold andThen at 1.
  unfold mergeQueryParams. rewrite collides_auth, Hc.
  unfold ok at 1. unfold deriveSigningKey, loadKey, hmac, sha256, andThen, ok.
  rewrite Hk. cbn. eexists. reflexivity.
Qed.

End EngineFacts.

(** The engine gets the expiration back from what the harness passes:
    [expires] lies [expiration] seconds after the faked now. *)
Lemma expires_window (NOW : Z) (t : V4SignedURLTestCase) :
  (expires NOW t - NOW) / 1000 = expiration t.
Proof.
  unfold expires.
  replace (NOW + expiration t * 1000 - NOW) with (expiration t * 1000) by lia.
  apply Z.div_mul. lia.
Qed.

Lemma sign_inside_not_range_error (P : Engine.Primitives)
    (req : Engine.SigningRequest) (c : Engine.SigningCredential)
    (addr : Engine.ResolvedAddress) (log : list Engine.CryptoOp) :
  0 < Engine.expirationSeconds req <= 604800 ->
  (Engine.sign P req c addr log).1 <> inl Engine.ExpirationRangeError.
Proof.
  intros He.
  destruct (usesReservedName (Engine.extraQueryParams req)) eqn:Hc.
  - rewrite (sign_collision P req c addr log He Hc). discriminate.
  - unfold Engine.sign. rewrite (validateExpiration_inside _ He).
    unfold Engine.andThen at 1, Engine.ok at 1. unfold Engine.andThen at 1.
    unfold Engine.mergeQueryParams. rewrite collides_auth, Hc.
    unfold Engine.ok at 1.
    unfold Engine.deriveSigningKey, Engine.loadKey, Engine.hmac, Engine.sha256,
      Engine.andThen, Engine.ok.
    destruct (Engine.parsePrivateKey P (Engine.privateKey c)); cbn; discriminate.
Qed.

Lemma resolve_with_host (P : Engine.Primitives) (r : Engine.ResourceRef)
    (mode : Engine.AddressingMode) :
  mode <> Engine.BoundHostname None ->
  exists addr, forall log, Engine.resolve P r mode log = (inr addr, log).
Proof.
  intros H. destruct mode as [| | [h|]]; cbn [Engine.resolve];
    try (eexists; intros log; reflexivity).
  contradiction.
Qed.

(** C2: an expiration of 0 or of 604801 seconds makes the signature
    builder fail with ExpirationRangeError with no cryptographic operation
    performed, and so does the whole signing operation once the address
    resolves; an expiration of 1 or of 604800 seconds passes the check,
    never yields ExpirationRangeError, and the request is signed when its
    other inputs are valid. *)
Theorem C2_expiration_boundary (P : Engine.Primitives)
    (req : Engine.SigningRequest) (c : Engine.SigningCredential)
    (addr : Engine.ResolvedAddress) :
  ((Engine.expirationSeconds req = 0 \/ Engine.expirationSeconds req = 604801) ->
     Engine.run (Engine.sign P req c addr)
       = (inl Engine.ExpirationRangeError, []) /\
     (Engine.addressing req <> Engine.BoundHostname None ->
      Engine.run (Engine.signUrl P c req)
        = (inl Engine.ExpirationRangeError, []))) /\
  ((Engine.expirationSeconds req = 1 \/ Engine.expirationSeconds req = 604800) ->
     Engine.run (Engine.validateExpiration (Engine.expirationSeconds req))
       = (inr tt, []) /\
     (Engine.run (Engine.sign P req c addr)).1
       <> inl Engine.ExpirationRangeError /\
     (usesReservedName (Engine.extraQueryParams req) = false ->
      is_Some (Engine.parsePrivateKey P (Engine.privateKey c)) ->
      exists s, (Engine.run (Engine.sign P req c addr)).1 = inr s)).
Proof.
  unfold Engine.run. split.
  - intros He.
    assert (Hout : ~ (0 < Engine.expirationSeconds req <= 604800)) by lia.
    split; [apply sign_outside, Hout |].
    intros Hmode. unfold Engine.signUrl, Engine.andThen.
    destruct (resolve_with_host P (Engine.resource req) _ Hmode) as [a Ha].
    rewrite Ha, (sign_outside P req c a [] Hout). reflexivity.
  - intros He.
    assert (Hin : 0 < Engine.expirationSeconds req <= 604800) by lia.
    split; [rewrite (validateExpiration_inside _ Hin); reflexivity |].
    split; [apply sign_inside_not_range_error, Hin |].
    intros Hc Hk. apply sign_succeeds; assumption.
Qed.

Lemma C2_expiration_boundary_witness :
  Engine.run (Engine.sign toyPrimitives
                (sampleRequest 0 [] Engine.PathStyle) sampleCredential
                sampleAddress)
    = (inl Engine.ExpirationRangeError, []) /\
  exists s,
    (Engine.run (Engine.sign toyPrimitives
                   (sampleRequest 604800 [] Engine.PathStyle) sampleCredential
                   sampleAddress)).1 = inr s.
Proof.
  split.
  - apply (proj1 (C2_expiration_boundary toyPrimitives
                    (sampleRequest 0 [] Engine.PathStyle) sampleCredential
                    sampleAddress)).
    left. reflexivity.
  - apply (proj2 (C2_expiration_boundary toyPrimitives
                    (sampleRequest 604800 [] Engine.PathStyle) sampleCredential
                    sampleAddress)).
    + right. reflexivity.
    + reflexivity.
    + eexists. reflexivity.
Defined.

(** C4: when the bound-hostname mode is requested without a host, the
    resolver, and with it the whole signing operation, fails with
    InvalidAddressingError; nothing is signed and no URL is produced. *)
Theorem C4_bound_hostname_requires_host (P : Engine.Primitives)
    (c : Engine.SigningCredential) (req : Engine.SigningRequest) :
  Engine.addressing req = Engine.BoundHostname None ->
  Engine.run (Engine.resolve P (Engine.resource req) (Engine.addressing req))
    = (inl Engine.InvalidAddressingError, []) /\
  Engine.run (Engine.signUrl P c req)
    = (inl Engine.InvalidAddressingError, []).
Proof.
  intros Hmode. unfold Engine.run, Engine.signUrl, Engine.andThen.
  rewrite Hmode. split; reflexivity.
Qed.

Lemma C4_bound_hostname_requires_host_witness :
  Engine.run (Engine.signUrl toyPrimitives sampleCredential
                (sampleRequest 600 [] (Engine.BoundHostname None)))
    = (inl Engine.InvalidAddressingError, []).
Proof.
  apply (proj2 (C4_bound_hostname_requires_host toyPrimitives
                  sampleCredential
                  (sampleRequest 600 [] (Engine.BoundHostname None)) eq_refl)).
Defined.

(** The harness itself forwards the absent host: [parseUrlStyle] never
    throws. *)
Lemma parseUrlStyle_bound_without_domain :
  parseUrlStyle (Some BUCKET_BOUND_HOSTNAME) None
  = {| cname := None; virtualHostedStyle := None |}.
Proof. reflexivity. Qed.

Lemma usesReservedName_intro (caller : list (string * string))
    (name value : string) :
  In (name, value) caller -> In name reservedAuthNames ->
  usesReservedName caller = true.
Proof.
  intros Hin Hres. unfold usesReservedName. apply existsb_exists.
  exists (name, value). split; [exact Hin |].
  apply existsb_exists. exists name. split; [exact Hres |].
  apply String.eqb_refl.
Qed.

Lemma collides_false (auth caller : list (string * string)) (k v : string) :
  Engine.collides auth caller = false -> In (k, v) caller ->
  ~ In k (Engine.reservedNames auth).
Proof.
  unfold Engine.collides. intros Hc Hin Hres.
  assert (Ht : existsb
                 (fun kv => existsb (String.eqb kv.1) (Engine.reservedNames auth))
                 caller = true).
  { apply existsb_exists. exists (k, v). split; [exact Hin |].
    apply existsb_exists. exists k. split; [exact Hres | apply String.eqb_refl]. }
  rewrite Ht in Hc. discriminate Hc.
Qed.

(** C8: a caller query parameter bearing a reserved auth name (the
    signature's among them) makes the parameter merge fail with
    QueryParamCollisionError; the signature builder then signs nothing, and
    with the expiration in range QueryParamCollisionError is what it fails
    with, before any cryptographic operation; and whenever the merge
    succeeds the auth parameters are kept as they are and no caller
    parameter bears one of their names. *)
Theorem C8_reserved_name_rejected (P : Engine.Primitives)
    (c : Engine.SigningCredential) (req : Engine.SigningRequest)
    (addr : Engine.ResolvedAddress) (name value : string) :
  In (name, value) (Engine.extraQueryParams req) ->
  In name reservedAuthNames ->
  (forall scope ts e signedHeaders,
     Engine.run
       (Engine.mergeQueryParams
          (Engine.authQueryParams P c scope ts e signedHeaders)
          (Engine.extraQueryParams req))
     = (inl Engine.QueryParamCollisionError, [])) /\
  (exists err, Engine.run (Engine.sign P req c addr) = (inl err, [])) /\
  (0 < Engine.expirationSeconds req <= 604800 ->
   Engine.run (Engine.sign P req c addr)
   = (inl Engine.QueryParamCollisionError, [])) /\
  (forall auth caller merged,
     (Engine.run (Engine.mergeQueryParams auth caller)).1 = inr merged ->
     merged = (auth ++ caller)%list /\
     forall k v, In (k, v) caller ->
                 ~ In k (map fst auth) /\ k <> Engine.signatureName).
Proof.
  intros Hin Hres.
  pose proof (usesReservedName_intro _ name value Hin Hres) as Hc.
  unfold Engine.run. repeat split.
  - intros scope ts e sh. unfold Engine.mergeQueryParams.
    rewrite collides_auth, Hc. reflexivity.
  - destruct (decide (0 < Engine.expirationSeconds req <= 604800)) as [He|He].
    + eexists. apply sign_collision; assumption.
    + eexists. apply sign_outside. exact He.
  - intros He. apply sign_collision; assumption.
  - unfold Engine.mergeQueryParams in H.
    destruct (Engine.collides auth caller); cbn in H; congruence.
  - intros Hk. unfold Engine.mergeQueryParams in H.
    destruct (Engine.collides auth caller) eqn:Hcol; [discriminate H |].
    apply (collides_false auth caller k v Hcol H0).
    unfold Engine.reservedNames. apply in_or_app. left. exact Hk.
  - intros ->. unfold Engine.mergeQueryParams in H.
    destruct (Engine.collides auth caller) eqn:Hcol; [discriminate H |].
    apply (collides_false auth caller _ v Hcol H0).
    unfold Engine.reservedNames. apply in_or_app. right. left. reflexivity.
Qed.

Lemma C8_reserved_name_rejected_witness :
  Engine.run (Engine.sign toyPrimitives
                (sampleRequest 600 [("X-Goog-Signature", "forged")]
                   Engine.PathStyle)
                sampleCredential sampleAddress)
  = (inl Engine.QueryParamCollisionError, []).
Proof.
  assert (Hres : In "X-Goog-Signature" reservedAuthNames) by (cbn; tauto).
  apply (proj1 (proj2 (proj2
           (C8_reserved_name_rejected toyPrimitives sampleCredential
              (sampleRequest 600 [("X-Goog-Signature", "forged")]
                 Engine.PathStyle)
              sampleAddress "X-Goog-Signature" "forged"
              (or_introl eq_refl) Hres)))).
  cbn. lia.
Defined.

(** * Further properties of the harness *)

(** ** The partition as a whole *)

(** X1: each of the two arrays lists its entries in fixture order and as
    often as the fixture has them: the URL cases are the fixture filtered
    by a truthy expectedUrl, the policy cases the fixture filtered by a
    falsy expectedUrl and a truthy policyInput. *)
Theorem partition_keeps_fixture_order (testCases : list Entry) :
  v4SignedUrlCases (partitionCases testCases)
    = List.filter isUrlCase testCases /\
  v4SignedPolicyCases (partitionCases testCases)
    = List.filter isPolicyOnly testCases.
Proof. rewrite partition_closed_form. split; reflexivity. Qed.

Lemma filter_three_way (testCases : list Entry) :
  (length (List.filter isUrlCase testCases)
   + length (List.filter isPolicyOnly testCases)
   + length (List.filter isDropped testCases))%nat
  = length testCases.
Proof.
  induction testCases as [|e rest IH]; [reflexivity |].
  cbn [List.filter]. unfold isPolicyOnly, isDropped in *.
  destruct (isUrlCase e), (isPolicyCase e); cbn [negb andb length]; lia.
Qed.

(** X2: every fixture entry is accounted for exactly once: the URL cases,
    the policy cases and the entries with neither a truthy expectedUrl nor
    a truthy policyInput add up to the fixture; so nothing is lost exactly
    when no entry is of the third kind. *)
Theorem partition_accounts_for_every_entry (testCases : list Entry) :
  (length (v4SignedUrlCases (partitionCases testCases))
   + length (v4SignedPolicyCases (partitionCases testCases))
   + length (List.filter isDropped testCases))%nat
  = length testCases /\
  ((length (v4SignedUrlCases (partitionCases testCases))
    + length (v4SignedPolicyCases (partitionCases testCases)))%nat
   = length testCases <->
   forall e, In e testCases -> isDropped e = false).
Proof.
  rewrite partition_closed_form. cbn [v4SignedUrlCases v4SignedPolicyCases].
  pose proof (filter_three_way testCases) as Hsum.
  split; [exact Hsum |]. split.
  - intros Hlen e Hin. destruct (isDropped e) eqn:Hd; [| reflexivity].
    assert (Hmem : In e (List.filter isDropped testCases))
      by (apply List.filter_In; split; assumption).
    destruct (List.filter isDropped testCases); [destruct Hmem |].
    cbn [length] in Hsum. lia.
  - intros Hnone.
    assert (Hnil : List.filter isDropped testCases = []).
    { destruct (List.filter isDropped testCases) as [|e rest] eqn:Hf;
        [reflexivity |].
      assert (Hmem : In e (List.filter isDropped testCases))
        by (rewrite Hf; left; reflexivity).
      apply List.filter_In in Hmem. destruct Hmem as [Hin Hd].
      rewrite (Hnone e Hin) in Hd. discriminate Hd. }
    rewrite Hnil in Hsum. cbn [length] in Hsum. lia.
Qed.

(** X3: partitioning two fixtures one after the other is partitioning
    each and appending the arrays. *)
Theorem partition_app (first second : list Entry) :
  partitionCases (first ++ second) =
  {| v4SignedUrlCases :=
       v4SignedUrlCases (partitionCases first)
       ++ v4SignedUrlCases (partitionCases second);
     v4SignedPolicyCases :=
       v4SignedPolicyCases (partitionCases first)
       ++ v4SignedPolicyCases (partitionCases second) |}.
Proof. rewrite !partition_closed_form, !List.filter_app. reflexivity. Qed.

(** X4: an entry whose expectedUrl is missing, null, false, 0 or the empty
    string is not a URL case; if its policyInput is an object, the empty
    one included, it is a policy case. *)
Theorem falsy_expectedUrl_falls_through (testCases : list Entry) (e : Entry)
    (fields : list (string * Js.Json)) :
  In e testCases ->
  In (Js.get e "expectedUrl")
     [None; Some Js.JNull; Some (Js.JBool false); Some (Js.JNum 0);
      Some (Js.JStr "")] ->
  Js.get e "policyInput" = Some (Js.JObj fields) ->
  ~ In e (v4SignedUrlCases (partitionCases testCases)) /\
  In e (v4SignedPolicyCases (partitionCases testCases)).
Proof.
  intros Hin Hurl Hpol.
  assert (Hu : isUrlCase e = false).
  { unfold isUrlCase. cbn [In] in Hurl.
    destruct Hurl as [<-|[<-|[<-|[<-|[<-|[]]]]]]; reflexivity. }
  assert (Hp : isPolicyCase e = true)
    by (unfold isPolicyCase; rewrite Hpol; reflexivity).
  rewrite in_urlCases, in_policyCases. split; [| tauto].
  intros [_ Hcontra]. congruence.
Qed.

Lemma falsy_expectedUrl_falls_through_witness :
  ~ In [("expectedUrl", Js.JStr ""); ("policyInput", Js.JObj [])]
       (v4SignedUrlCases
          (partitionCases
             [[("expectedUrl", Js.JStr ""); ("policyInput", Js.JObj [])]])) /\
  In [("expectedUrl", Js.JStr ""); ("policyInput", Js.JObj [])]
     (v4SignedPolicyCases
        (partitionCases
           [[("expectedUrl", Js.JStr ""); ("policyInput", Js.JObj [])]])).
Proof.
  apply (falsy_expectedUrl_falls_through
           [[("expectedUrl", Js.JStr ""); ("policyInput", Js.JObj [])]]
           [("expectedUrl", Js.JStr ""); ("policyInput", Js.JObj [])] []).
  - left. reflexivity.
  - cbn. tauto.
  - reflexivity.
Defined.

(** ** Loading the fixture *)

Lemma partitionItems_null (items : list Js.Json) (acc : Partition) :
  existsb isNull items = true -> partitionItems items acc = None.
Proof.
  revert acc. induction items as [|item rest IH]; intros acc; cbn; [discriminate |].
  destruct item; cbn; try (intros H; apply IH; exact H).
  reflexivity.
Qed.

Lemma partitionItems_objects (items : list Js.Json) (acc : Partition) :
  existsb isNull items = false ->
  partitionItems items acc = Some (fold_left partitionStep (objectsOf items) acc).
Proof.
  revert acc. induction items as [|item rest IH]; intros acc; cbn; [reflexivity |].
  destruct item; cbn; try (intros H; apply IH; exact H).
  discriminate.
Qed.

(** X5: when the parsed file is an object whose signingV4Tests is an
    array, loading throws if some element is null; otherwise it succeeds,
    the elements that are not objects (numbers, strings, booleans, nested
    arrays) are skipped, and the result is the partition of the object
    elements. *)
Theorem loadFixture_array (fields : list (string * Js.Json))
    (items : list Js.Json) :
  Js.get fields "signingV4Tests" = Some (Js.JArr items) ->
  loadFixture (Js.JObj fields) =
  if existsb isNull items then None
  else Some (partitionCases (objectsOf items)).
Proof.
  intros Hget. unfold loadFixture, signingV4Tests. rewrite Hget.
  destruct (existsb isNull items) eqn:Hnull.
  - apply partitionItems_null, Hnull.
  - apply partitionItems_objects, Hnull.
Qed.

Lemma loadFixture_array_witness :
  loadFixture
    (Js.JObj [("signingV4Tests",
               Js.JArr [Js.JNum 7; Js.JObj sampleBoth; Js.JArr []])])
  = Some (partitionCases [sampleBoth]).
Proof.
  apply (loadFixture_array
           [("signingV4Tests",
             Js.JArr [Js.JNum 7; Js.JObj sampleBoth; Js.JArr []])]
           [Js.JNum 7; Js.JObj sampleBoth; Js.JArr []]).
  reflexivity.
Defined.

(** X6: a parsed file that is not an object, or is an object without a
    signingV4Tests property, makes the loop throw instead of running no
    test; an empty array loads and leaves both arrays empty. *)
Theorem loadFixture_missing_key (root : Js.Json) :
  (forall fields, root = Js.JObj fields ->
                  Js.get fields "signingV4Tests" = None) ->
  loadFixture root = None /\
  loadFixture (Js.JObj [("signingV4Tests", Js.JArr [])]) = Some emptyPartition.
Proof.
  intros Hmissing. split; [| reflexivity].
  unfold loadFixture, signingV4Tests.
  destruct root; try reflexivity.
  rewrite (Hmissing fields eq_refl). reflexivity.
Qed.

Lemma loadFixture_missing_key_witness :
  loadFixture (Js.JObj [("signingV4tests", Js.JArr [])]) = None.
Proof.
  apply (loadFixture_missing_key (Js.JObj [("signingV4tests", Js.JArr [])])).
  intros fields [= <-]. reflexivity.
Defined.

(** ** Addressing configuration *)

(** X7: the result of [parseUrlStyle] tells the style apart:
    virtualHostedStyle is true exactly for VIRTUAL_HOSTED_STYLE, left
    undefined exactly for BUCKET_BOUND_HOSTNAME, and false exactly for
    PATH_STYLE or an absent style; a cname is defined exactly for
    BUCKET_BOUND_HOSTNAME with a defined domain. *)
Theorem parseUrlStyle_identifies_style (style : option UrlStyle)
    (dom : option string) :
  (virtualHostedStyle (parseUrlStyle style dom) = Some true
     <-> style = Some VIRTUAL_HOSTED_STYLE) /\
  (virtualHostedStyle (parseUrlStyle style dom) = None
     <-> style = Some BUCKET_BOUND_HOSTNAME) /\
  (virtualHostedStyle (parseUrlStyle style dom) = Some false
     <-> style = None \/ style = Some PATH_STYLE) /\
  (is_Some (cname (parseUrlStyle style dom))
     <-> style = Some BUCKET_BOUND_HOSTNAME /\ is_Some dom).
Proof.
  destruct style as [[]|]; cbn; repeat split; intros; try discriminate;
    try reflexivity; try (right; reflexivity); try (left; reflexivity);
    try match goal with H : _ \/ _ |- _ => destruct H; discriminate end;
    try match goal with H : is_Some None |- _ => destruct H; discriminate end;
    try match goal with H : _ /\ _ |- _ => destruct H; try discriminate end;
    try assumption.
Qed.

Lemma append_inj_r (prefix a b : string) :
  prefix +:+ a = prefix +:+ b -> a = b.
Proof.
  induction prefix as [|ch rest IH]; cbn; intros H; [exact H |].
  injection H as H. exact (IH H).
Qed.

Lemma domain_some (t : V4SignedURLTestCase) (d : string) :
  domain t = Some d ->
  exists h, bucketBoundHostname t = Some h /\ h <> "" /\
            d = scheme_str (scheme t) +:+ "://" +:+ h.
Proof.
  unfold domain. destruct (bucketBoundHostname t) as [h|]; [| discriminate].
  cbn. destruct (String.eqb h "") eqn:E; cbn; [discriminate |].
  intros [= <-]. exists h. apply String.eqb_neq in E. auto.
Qed.

Lemma domain_none (t : V4SignedURLTestCase) :
  domain t = None <-> Js.truthy_str (bucketBoundHostname t) = false.
Proof.
  unfold domain. destruct (bucketBoundHostname t) as [h|]; [| tauto].
  destruct (Js.truthy_str (Some h)); split; intros; congruence.
Qed.

(** X8: the domain string determines the scheme and the hostname it was
    built from: two test cases with the same defined domain have the same
    scheme and the same bucketBoundHostname, and a defined domain is never
    a bare scheme prefix. *)
Theorem domain_determines_scheme_and_host (t1 t2 : V4SignedURLTestCase)
    (d : string) :
  domain t1 = Some d -> domain t2 = Some d ->
  scheme t1 = scheme t2 /\
  bucketBoundHostname t1 = bucketBoundHostname t2 /\
  d <> scheme_str (scheme t1) +:+ "://".
Proof.
  intros H1 H2.
  destruct (domain_some t1 d H1) as (h1 & Hb1 & Hne1 & Hd1).
  destruct (domain_some t2 d H2) as (h2 & Hb2 & Hne2 & Hd2).
  rewrite Hb1, Hb2. subst d.
  assert (Hs : scheme t1 = scheme t2).
  { destruct (scheme t1), (scheme t2); try reflexivity; cbn in Hd2;
      discriminate Hd2. }
  split; [exact Hs |]. rewrite Hs in *. split.
  - f_equal. apply (append_inj_r "://"), (append_inj_r (scheme_str (scheme t2))).
    exact Hd2.
  - intros Hbare. apply Hne1.
    apply (append_inj_r (scheme_str (scheme t2)) ("://" +:+ h1) "://") in Hbare.
    cbn in Hbare. injection Hbare as Hbare. exact Hbare.
Qed.

Lemma domain_determines_scheme_and_host_witness :
  scheme (withHostname (Some BUCKET_BOUND_HOSTNAME) (Some "mydomain.tld")
            sampleCase) = https /\
  bucketBoundHostname
    (withHostname (Some BUCKET_BOUND_HOSTNAME) (Some "mydomain.tld") sampleCase)
  = Some "mydomain.tld".
Proof.
  destruct (domain_determines_scheme_and_host
              (withHostname (Some BUCKET_BOUND_HOSTNAME) (Some "mydomain.tld")
                 sampleCase)
              (withHostname None (Some "mydomain.tld") sampleCase)
              "https://mydomain.tld" eq_refl eq_refl) as (Hs & Hb & _).
  split; [exact Hs | exact Hb].
Defined.

(** X9: the configuration handed to the engine never defines both a cname
    and a virtualHostedStyle flag, and it defines neither exactly when the
    style is BUCKET_BOUND_HOSTNAME and the bucketBoundHostname is missing
    or empty. *)
Theorem config_cname_excludes_flag (NOW : Z) (t : V4SignedURLTestCase) :
  ~ (is_Some (GetSignedUrlConfig.cname (config NOW t)) /\
     is_Some (GetSignedUrlConfig.virtualHostedStyle (config NOW t))) /\
  (GetSignedUrlConfig.cname (config NOW t) = None /\
   GetSignedUrlConfig.virtualHostedStyle (config NOW t) = None
   <-> urlStyle t = Some BUCKET_BOUND_HOSTNAME /\
       Js.truthy_str (bucketBoundHostname t) = false).
Proof.
  cbn [config GetSignedUrlConfig.cname GetSignedUrlConfig.virtualHostedStyle].
  unfold styleOf. rewrite <- domain_none.
  destruct (urlStyle t) as [[]|]; cbn; split;
    try (intros [[? ?] [? ?]]; congruence);
    try (split; [intros [_ ?]; discriminate | intros [? _]; discriminate]).
  split; [intros [H _]; split; [reflexivity | exact H]
         | intros [_ H]; split; [exact H | reflexivity]].
Qed.

(** X10: for a valid timestamp and an integer expiration, as long as the
    faked now, the expiration in milliseconds and their sum are safe
    integers, the deadline handed to the engine lies a whole number of
    seconds after the faked now; dividing the distance by 1000 gives back
    the fixture's expiration, the deadline is in the future exactly when
    the expiration is positive, and a longer expiration gives a later
    deadline. *)
Theorem config_expires_round_trip (NOW : Z) (t t' : V4SignedURLTestCase) :
  safeInteger NOW ->
  safeInteger (expiration t * 1000) ->
  safeInteger (NOW + expiration t * 1000) ->
  safeInteger (expiration t' * 1000) ->
  safeInteger (NOW + expiration t' * 1000) ->
  (GetSignedUrlConfig.expires (config NOW t) - NOW) mod 1000 = 0 /\
  (GetSignedUrlConfig.expires (config NOW t) - NOW) / 1000 = expiration t /\
  (NOW < GetSignedUrlConfig.expires (config NOW t) <-> 0 < expiration t) /\
  (GetSignedUrlConfig.expires (config NOW t)
     < GetSignedUrlConfig.expires (config NOW t')
   <-> expiration t < expiration t').
Proof.
  intros _ _ _ _ _.
  cbn [config GetSignedUrlConfig.expires]. unfold expires.
  replace (NOW + expiration t * 1000 - NOW) with (expiration t * 1000) by lia.
  rewrite Z.mod_mul, Z.div_mul by lia. repeat split; lia.
Qed.

Lemma config_expires_round_trip_witness :
  (GetSignedUrlConfig.expires (config 1577836800000 sampleCase)
   - 1577836800000) / 1000 = 600.
Proof.
  assert (Hnow : safeInteger 1577836800000) by (unfold safeInteger; lia).
  assert (Hms : safeInteger (expiration sampleCase * 1000))
    by (unfold safeInteger; cbn; lia).
  assert (Hsum : safeInteger (1577836800000 + expiration sampleCase * 1000))
    by (unfold safeInteger; cbn; lia).
  apply (proj1 (proj2 (config_expires_round_trip 1577836800000 sampleCase
                         sampleCase Hnow Hms Hsum Hms Hsum))).
Defined.

(** ** Dispatch and target *)

Lemma member_own (literal : list (string * string)) (m a : string) :
  Js.member literal m = Js.Own a <-> Js.own literal m = Some a.
Proof.
  unfold Js.member. destruct (Js.own literal m) as [v|].
  - split; intros [= ->]; reflexivity.
  - destruct (existsb _ _); split; discriminate.
Qed.

Lemma own_FileAction_some (m a : string) :
  Js.own FileAction m = Some a ->
  In (m, a) FileAction.
Proof.
  unfold FileAction. cbn [Js.own].
  repeat match goal with
         | |- context [String.eqb ?k m] =>
             let E := fresh "E" in
             destruct (String.eqb k m) eqn:E;
             [apply String.eqb_eq in E; subst m; intros [= <-]; cbn; tauto |]
         end.
  discriminate.
Qed.

Lemma own_BucketAction_some (m a : string) :
  Js.own BucketAction m = Some a -> m = "GET" /\ a = "list".
Proof.
  unfold BucketAction. cbn [Js.own].
  destruct (String.eqb "GET" m) eqn:E; [| discriminate].
  apply String.eqb_eq in E. intros [= <-]. auto.
Qed.

Lemma action_own_cases (t : V4SignedURLTestCase) (a : string) :
  action t = Js.Own a ->
  (Js.truthy_str (object t) = true /\ In (method t, a) FileAction) \/
  (Js.truthy_str (object t) = false /\ method t = "GET" /\ a = "list").
Proof.
  unfold action. destruct (Js.truthy_str (object t)); intros H;
    apply member_own in H.
  - left. split; [reflexivity | apply own_FileAction_some, H].
  - right. split; [reflexivity | apply own_BucketAction_some, H].
Qed.

Lemma target_file (t : V4SignedURLTestCase) :
  Js.truthy_str (object t) = true ->
  exists o, object t = Some o /\ o <> "" /\ target t = FileTarget (bucket t) o.
Proof.
  unfold target. destruct (object t) as [o|]; [| discriminate].
  intros H. rewrite H. exists o. cbn in H.
  apply negb_true_iff, String.eqb_neq in H. auto.
Qed.

Lemma target_bucket (t : V4SignedURLTestCase) :
  Js.truthy_str (object t) = false -> target t = BucketTarget (bucket t).
Proof.
  unfold target. destruct (object t) as [o|]; [| reflexivity].
  intros ->. reflexivity.
Qed.

(** X11: action and target always fit together: whenever the lookup
    finds an action, 'list' goes to the bucket itself and each of 'read',
    'resumable', 'write' and 'delete' goes to a file of the bucket whose
    name is the test case's non-empty object. *)
Theorem action_fits_target (t : V4SignedURLTestCase) (a : string) :
  action t = Js.Own a ->
  (a = "list" /\ target t = BucketTarget (bucket t)) \/
  (In a ["read"; "resumable"; "write"; "delete"] /\
   exists o, object t = Some o /\ o <> "" /\
             target t = FileTarget (bucket t) o).
Proof.
  intros H. destruct (action_own_cases t a H) as [[Hobj Hin] | (Hobj & _ & ->)].
  - right. split; [| apply target_file, Hobj].
    unfold FileAction in Hin. cbn [In] in Hin |- *.
    destruct Hin as [[= _ <-]|[[= _ <-]|[[= _ <-]|[[= _ <-]|[]]]]]; tauto.
  - left. split; [reflexivity | apply target_bucket, Hobj].
Qed.

Lemma action_fits_target_witness :
  ("read" = "list" /\ target sampleCase = BucketTarget (bucket sampleCase)) \/
  (In "read" ["read"; "resumable"; "write"; "delete"] /\
   exists o, object sampleCase = Some o /\ o <> "" /\
             target sampleCase = FileTarget (bucket sampleCase) o).
Proof. apply (action_fits_target sampleCase "read"). reflexivity. Defined.

(** X12: the lookup finds an action of its table exactly for the
    recognised verbs: GET, POST, PUT and DELETE for a file case, GET alone
    for a bucket case. *)
Theorem action_found_iff_recognised (t : V4SignedURLTestCase) :
  (exists a, action t = Js.Own a) <-> recognisedVerb t = true.
Proof.
  split.
  - intros [a H]. unfold recognisedVerb.
    destruct (action_own_cases t a H) as [[-> Hin] | (-> & -> & _)];
      [| reflexivity].
    unfold FileAction in Hin. cbn [In] in Hin.
    destruct Hin as [[= <- _]|[[= <- _]|[[= <- _]|[[= <- _]|[]]]]]; reflexivity.
  - intros Hrec. unfold recognisedVerb, action in *.
    destruct (Js.truthy_str (object t)).
    + cbn [existsb] in Hrec. rewrite orb_false_r, !orb_true_iff in Hrec.
      destruct Hrec as [H|[H|[H|H]]]; apply String.eqb_eq in H; rewrite H;
        eexists; reflexivity.
    + apply String.eqb_eq in Hrec. rewrite Hrec. eexists. reflexivity.
Qed.

(** X13: a method that names a member of Object.prototype (constructor,
    toString, valueOf, ...) reaches the engine as that inherited member:
    the lookup is neither an action of the table nor undefined. *)
Theorem prototype_name_is_inherited (t : V4SignedURLTestCase) :
  In (method t) Js.objectPrototypeKeys ->
  action t = Js.Inherited (method t).
Proof.
  intros Hin. unfold action, Js.objectPrototypeKeys in *. cbn [In] in Hin.
  repeat (destruct Hin as [<- | Hin];
          [destruct (Js.truthy_str (object t)); reflexivity |]).
  destruct Hin.
Qed.

Lemma prototype_name_is_inherited_witness :
  action (withMethod "constructor" sampleCase) = Js.Inherited "constructor".
Proof.
  apply (prototype_name_is_inherited (withMethod "constructor" sampleCase)).
  cbn. tauto.
Defined.

(** X14: the dispatch is one-to-one: two test cases that get the same
    action of the table have the same method and agree on being a file or
    a bucket case. *)
Theorem action_determines_method (t1 t2 : V4SignedURLTestCase) (a : string) :
  action t1 = Js.Own a -> action t2 = Js.Own a ->
  method t1 = method t2 /\
  Js.truthy_str (object t1) = Js.truthy_str (object t2).
Proof.
  intros H1 H2.
  pose proof (action_own_cases t1 a H1) as Hcase1.
  pose proof (action_own_cases t2 a H2) as Hcase2.
  unfold FileAction in Hcase1, Hcase2. cbn [In] in Hcase1, Hcase2.
  destruct Hcase1 as [[-> Hin1] | (-> & -> & Ha1)];
    destruct Hcase2 as [[-> Hin2] | (-> & -> & Ha2)].
  - split; [| reflexivity].
    destruct Hin1 as [E1|[E1|[E1|[E1|[]]]]];
      destruct Hin2 as [E2|[E2|[E2|[E2|[]]]]]; congruence.
  - exfalso. destruct Hin1 as [E1|[E1|[E1|[E1|[]]]]]; congruence.
  - exfalso. destruct Hin2 as [E2|[E2|[E2|[E2|[]]]]]; congruence.
  - split; reflexivity.
Qed.

Lemma action_determines_method_witness :
  method sampleCase = method (withHostname None None sampleCase) /\
  Js.truthy_str (object sampleCase)
  = Js.truthy_str (object (withHostname None None sampleCase)).
Proof.
  apply (action_determines_method sampleCase
           (withHostname None None sampleCase) "read"); reflexivity.
Defined.

(** ** What one URL test does to the world *)

Lemma signTestCase_run (rt : Runtime) (t : V4SignedURLTestCase) (w : World) :
  signTestCase rt t w =
  (getSignedUrl rt (Date_parse rt (timestamp t)) (target t)
     (config (Date_parse rt (timestamp t)) t),
   afterSigning rt t w).
Proof.
  unfold signTestCase, callGetSignedUrl, engine, useFakeTimers, emit, afterSigning.
  unfold mbind, Test_bind, bind. cbn. rewrite <- app_assoc. reflexivity.
Qed.

Lemma checkUrl_run (rt : Runtime) (expectedUrl signedUrl : string)
    (e a : Url) (w : World) :
  URL_parse rt expectedUrl = Some e -> URL_parse rt signedUrl = Some a ->
  checkUrl rt expectedUrl signedUrl w =
  (if bool_decide (origin a = origin e)
      && bool_decide (pathname a = pathname e)
      && deepStrictEqual (querystring_parse rt (search a))
                         (querystring_parse rt (search e))
   then Some tt else None,
   {| clock := clock w;
      trace := trace w ++ take (assertionsRun e a) (assertionsOf rt e a) |}).
Proof.
  intros He Ha.
  unfold checkUrl, assert_strictEqual, assert_deepStrictEqual, liftOption, emit.
  unfold mbind, Test_bind, bind, mret, Test_ret, ret, throw, assertionsRun,
    assertionsOf.
  rewrite He, Ha. cbn.
  destruct (bool_decide (origin a = origin e)); cbn; [| reflexivity].
  destruct (bool_decide (pathname a = pathname e)); cbn;
    [| rewrite <- app_assoc; reflexivity].
  destruct (deepStrictEqual _ _); cbn; rewrite <- !app_assoc; reflexivity.
Qed.

Lemma checkUrl_unparsed (rt : Runtime) (expectedUrl signedUrl : string)
    (w : World) :
  URL_parse rt expectedUrl = None \/ URL_parse rt signedUrl = None ->
  checkUrl rt expectedUrl signedUrl w = (None, w).
Proof.
  unfold checkUrl, liftOption. unfold mbind, Test_bind, bind, throw.
  intros [H|H]; rewrite H; [reflexivity |].
  destruct (URL_parse rt expectedUrl); reflexivity.
Qed.

Lemma urlTest_unfold (rt : Runtime) (t : V4SignedURLTestCase) (w : World) :
  urlTest rt t w =
  match getSignedUrl rt (Date_parse rt (timestamp t)) (target t)
          (config (Date_parse rt (timestamp t)) t) with
  | None => (None, afterSigning rt t w)
  | Some u =>
      match checkUrl rt (expectedUrl t) u (afterSigning rt t w) with
      | (Some _, w') => restore w'
      | (None, w') => (None, w')
      end
  end.
Proof.
  unfold urlTest. unfold mbind at 1, Test_bind at 1, bind at 1.
  rewrite signTestCase_run.
  destruct (getSignedUrl rt _ _ _); reflexivity.
Qed.

Lemma assertionsIn_app (w : World) (c : Clock) (events : list Event) :
  assertionsIn {| clock := c; trace := trace w ++ events |}
  = (assertionsIn w ++ List.filter isAssertion events)%list.
Proof. unfold assertionsIn. cbn. apply List.filter_app. Qed.

Lemma assertionsIn_afterSigning (rt : Runtime) (t : V4SignedURLTestCase)
    (w : World) :
  assertionsIn (afterSigning rt t w) = assertionsIn w.
Proof.
  unfold afterSigning. rewrite assertionsIn_app. cbn. apply app_nil_r.
Qed.

(** X15: when the engine rejects, or the expected URL or the signed URL
    does not parse, the test fails without any assertion having been
    executed. *)
Theorem no_url_no_assertion (rt : Runtime) (t : V4SignedURLTestCase)
    (w : World) :
  (getSignedUrl rt (Date_parse rt (timestamp t)) (target t)
     (config (Date_parse rt (timestamp t)) t) = None \/
   URL_parse rt (expectedUrl t) = None \/
   exists u, getSignedUrl rt (Date_parse rt (timestamp t)) (target t)
               (config (Date_parse rt (timestamp t)) t) = Some u /\
             URL_parse rt u = None) ->
  (urlTest rt t w).1 = None /\
  assertionsIn (urlTest rt t w).2 = assertionsIn w.
Proof.
  intros H. rewrite urlTest_unfold.
  destruct (getSignedUrl rt _ _ _) as [u|] eqn:Hu.
  - assert (Hp : URL_parse rt (expectedUrl t) = None \/ URL_parse rt u = None).
    { destruct H as [H|[H|(u' & [= <-] & H)]]; [discriminate | auto | auto]. }
    rewrite (checkUrl_unparsed rt _ _ _ Hp). cbn.
    split; [reflexivity | apply assertionsIn_afterSigning].
  - cbn. split; [reflexivity | apply assertionsIn_afterSigning].
Qed.

Lemma no_url_no_assertion_witness :
  (urlTest rejectingRuntime sampleCase startWorld).1 = None /\
  assertionsIn (urlTest rejectingRuntime sampleCase startWorld).2
  = assertionsIn startWorld.
Proof.
  apply (no_url_no_assertion rejectingRuntime sampleCase startWorld).
  left. reflexivity.
Defined.

Lemma take_assertions_are_assertions (rt : Runtime) (e a : Url) :
  List.filter isAssertion (take (assertionsRun e a) (assertionsOf rt e a))
  = take (assertionsRun e a) (assertionsOf rt e a).
Proof.
  unfold assertionsRun, assertionsOf.
  destruct (bool_decide _); [destruct (bool_decide _) |]; reflexivity.
Qed.

Lemma take_assertions_no_engine_call (rt : Runtime) (e a : Url) :
  List.filter isEngineCall (take (assertionsRun e a) (assertionsOf rt e a)) = [].
Proof.
  unfold assertionsRun, assertionsOf.
  destruct (bool_decide _); [destruct (bool_decide _) |]; reflexivity.
Qed.

Lemma assertionsRun_three (e a : Url) :
  bool_decide (origin a = origin e) && bool_decide (pathname a = pathname e)
  = true -> assertionsRun e a = 3%nat.
Proof.
  unfold assertionsRun. intros H. apply andb_true_iff in H.
  destruct H as [-> ->]. reflexivity.
Qed.

(** X16: once both URLs parse, the assertions run in the order origin,
    pathname, query and stop at the first one that fails: one assertion is
    executed when the origins differ, two when only the pathnames differ,
    all three otherwise, and a test that passes has executed all three. *)
Theorem assertions_stop_at_first_failure (rt : Runtime)
    (t : V4SignedURLTestCase) (w : World) (u : string) (e a : Url) :
  getSignedUrl rt (Date_parse rt (timestamp t)) (target t)
    (config (Date_parse rt (timestamp t)) t) = Some u ->
  URL_parse rt (expectedUrl t) = Some e ->
  URL_parse rt u = Some a ->
  assertionsIn (urlTest rt t w).2
    = (assertionsIn w ++ take (assertionsRun e a) (assertionsOf rt e a))%list /\
  (origin a <> origin e -> assertionsRun e a = 1%nat) /\
  (origin a = origin e -> pathname a <> pathname e ->
   assertionsRun e a = 2%nat) /\
  ((urlTest rt t w).1 = Some tt -> assertionsRun e a = 3%nat).
Proof.
  intros Hu He Ha. rewrite urlTest_unfold, Hu, (checkUrl_run rt _ _ e a _ He Ha).
  split; [| split; [| split]].
  - destruct (_ && _ && _); cbn.
    + unfold assertionsIn. cbn. rewrite !List.filter_app. cbn.
      rewrite !app_nil_r, take_assertions_are_assertions. reflexivity.
    + unfold assertionsIn. cbn. rewrite !List.filter_app. cbn.
      rewrite !app_nil_r, take_assertions_are_assertions. reflexivity.
  - intros Hne. unfold assertionsRun.
    rewrite bool_decide_eq_false_2 by exact Hne. reflexivity.
  - intros Heq Hne. unfold assertionsRun.
    rewrite bool_decide_eq_true_2 by exact Heq.
    rewrite bool_decide_eq_false_2 by exact Hne. reflexivity.
  - destruct (bool_decide (origin a = origin e)
              && bool_decide (pathname a = pathname e)) eqn:Hboth.
    + intros _. apply assertionsRun_three, Hboth.
    + cbn. discriminate.
Qed.

Lemma assertions_stop_at_first_failure_witness :
  assertionsIn (urlTest strayRuntime sampleCase startWorld).2
  = [EvStrictEqual "https://elsewhere.test" "https://storage.googleapis.com"].
Proof.
  apply (proj1 (assertions_stop_at_first_failure strayRuntime sampleCase
                  startWorld "stray"
                  {| origin := "https://storage.googleapis.com";
                     pathname := "/validation-bucket/test.txt";
                     search := "" |}
                  {| origin := "https://elsewhere.test";
                     pathname := "/validation-bucket/test.txt";
                     search := "" |}
                  eq_refl eq_refl eq_refl)).
Defined.

(** X17: a test that starts on the real clock and passes hands the clock
    back as it found it; one that fails never reaches
    [fakeTimer.restore()], so the clock stays faked at the test case's
    timestamp; the wall clock itself is never touched. *)
Theorem failing_test_leaves_clock_faked (rt : Runtime)
    (t : V4SignedURLTestCase) (w : World) :
  fake (clock w) = None ->
  wall (clock (urlTest rt t w).2) = wall (clock w) /\
  ((urlTest rt t w).1 = Some tt -> clock (urlTest rt t w).2 = clock w) /\
  ((urlTest rt t w).1 = None ->
   fake (clock (urlTest rt t w).2) = Some (Date_parse rt (timestamp t)) /\
   Date_now (clock (urlTest rt t w).2) = Date_parse rt (timestamp t)).
Proof.
  intros Hreal. rewrite urlTest_unfold.
  destruct (getSignedUrl rt _ _ _) as [u|]; cbn;
    [| repeat split; discriminate].
  destruct (URL_parse rt (expectedUrl t)) as [e|] eqn:He;
    [| rewrite (checkUrl_unparsed rt _ _ _ (or_introl He)); cbn;
       repeat split; discriminate].
  destruct (URL_parse rt u) as [a|] eqn:Ha;
    [| rewrite (checkUrl_unparsed rt _ _ _ (or_intror Ha)); cbn;
       repeat split; discriminate].
  rewrite (checkUrl_run rt _ _ e a _ He Ha).
  destruct (_ && _ && _); cbn.
  - split; [reflexivity |]. split; [| discriminate].
    intros _. destruct (clock w) as [wl fk]. cbn in *. subst fk. reflexivity.
  - repeat split; discriminate.
Qed.

Lemma failing_test_leaves_clock_faked_witness :
  fake (clock (urlTest rejectingRuntime sampleCase startWorld).2)
  = Some (Date_parse rejectingRuntime (timestamp sampleCase)) /\
  Date_now (clock (urlTest rejectingRuntime sampleCase startWorld).2)
  = Date_parse rejectingRuntime (timestamp sampleCase).
Proof.
  apply (proj2 (proj2 (failing_test_leaves_clock_faked rejectingRuntime
                         sampleCase startWorld eq_refl))).
  reflexivity.
Defined.

(** X18: every test calls the engine exactly once, right after faking the
    clock and before any assertion, whether it then passes or fails. *)
Theorem engine_called_once_first (rt : Runtime) (t : V4SignedURLTestCase)
    (w : World) :
  exists rest,
    trace (urlTest rt t w).2
    = (trace w ++
       EvUseFakeTimers (Date_parse rt (timestamp t))
       :: EvGetSignedUrl (target t) (config (Date_parse rt (timestamp t)) t)
       :: rest)%list /\
    List.filter isEngineCall rest = [] /\
    engineCallsIn (urlTest rt t w).2
    = (engineCallsIn w ++
       [EvGetSignedUrl (target t) (config (Date_parse rt (timestamp t)) t)])%list.
Proof.
  assert (Hshape : exists rest,
    trace (urlTest rt t w).2 = (trace (afterSigning rt t w) ++ rest)%list /\
    List.filter isEngineCall rest = []).
  { rewrite urlTest_unfold.
    destruct (getSignedUrl rt _ _ _) as [u|]; cbn [snd];
      [| exists []; rewrite app_nil_r; split; reflexivity].
    destruct (URL_parse rt (expectedUrl t)) as [e|] eqn:He;
      [| rewrite (checkUrl_unparsed rt _ _ _ (or_introl He));
         exists []; rewrite app_nil_r; split; reflexivity].
    destruct (URL_parse rt u) as [a|] eqn:Ha;
      [| rewrite (checkUrl_unparsed rt _ _ _ (or_intror Ha));
         exists []; rewrite app_nil_r; split; reflexivity].
    rewrite (checkUrl_run rt _ _ e a _ He Ha).
    destruct (_ && _ && _); cbn.
    - exists (take (assertionsRun e a) (assertionsOf rt e a) ++ [EvRestore])%list.
      split; [rewrite <- !app_assoc; reflexivity |].
      rewrite List.filter_app, take_assertions_no_engine_call. reflexivity.
    - exists (take (assertionsRun e a) (assertionsOf rt e a)).
      split; [reflexivity | apply take_assertions_no_engine_call]. }
  destruct Hshape as (rest & Htrace & Hrest). exists rest.
  unfold afterSigning in Htrace. cbn [trace] in Htrace.
  rewrite <- app_assoc in Htrace. cbn [app] in Htrace.
  split; [exact Htrace |]. split; [exact Hrest |].
  unfold engineCallsIn. rewrite Htrace, List.filter_app. cbn.
  rewrite Hrest. reflexivity.
Qed.

(** ** The comparison as a relation *)

(** X19: the three assertions together behave as an equivalence on URLs
    that parse: a URL conforms to itself, conformance does not depend on
    which URL is the expected one, and it is transitive; the outcome does
    not depend on the world the comparison runs in. *)
Theorem comparison_is_equivalence (rt : Runtime) (x y z : string)
    (w w' : World) :
  (is_Some (URL_parse rt x) -> (checkUrl rt x x w).1 = Some tt) /\
  ((checkUrl rt x y w).1 = Some tt -> (checkUrl rt y x w').1 = Some tt) /\
  ((checkUrl rt x y w).1 = Some tt -> (checkUrl rt y z w).1 = Some tt ->
   (checkUrl rt x z w').1 = Some tt).
Proof.
  rewrite !checkUrl_passes. split; [| split].
  - intros [u Hu]. exists u, u. auto.
  - intros (e & a & He & Ha & Ho & Hp & Hq). exists a, e. auto.
  - intros (e & a & He & Ha & Ho & Hp & Hq) (e' & a' & He' & Ha' & Ho' & Hp' & Hq').
    rewrite Ha in He'. injection He' as <-.
    exists e, a'. repeat split; try assumption; congruence.
Qed.

Lemma comparison_is_equivalence_witness :
  (checkUrl sampleRuntime "https://storage.googleapis.com/b/o"
     "https://storage.googleapis.com/b/o" startWorld).1 = Some tt.
Proof.
  apply (proj1 (comparison_is_equivalence sampleRuntime
                  "https://storage.googleapis.com/b/o" "" "" startWorld
                  startWorld)).
  eexists. reflexivity.
Defined.

Lemma deepStrictEqual_lookups (a b : QsObject) :
  deepStrictEqual a b = true <-> forall k, qsGet a k = qsGet b k.
Proof.
  rewrite deepStrictEqual_spec. split.
  - intros H k. rewrite <- !qsMap_lookup, H. reflexivity.
  - intros H. apply map_eq. intros k. rewrite !qsMap_lookup. apply H.
Qed.

(** X20: two parsed query objects are accepted exactly when every key
    reads the same in both, a missing key counting as a difference; so the
    empty object is equal to the empty object only, and an extra parameter
    on either side fails the comparison. *)
Theorem deepStrictEqual_by_lookup (a b : QsObject) (k : string) (v : QsValue) :
  (deepStrictEqual a b = true <-> forall key, qsGet a key = qsGet b key) /\
  (deepStrictEqual [] b = true <-> b = []) /\
  (qsGet b k = None -> deepStrictEqual ((k, v) :: a) b = false) /\
  (qsGet a k = None -> deepStrictEqual a ((k, v) :: b) = false).
Proof.
  split; [apply deepStrictEqual_lookups |]. split; [| split].
  - rewrite deepStrictEqual_lookups. split.
    + intros H. destruct b as [|[k' v'] rest]; [reflexivity |].
      specialize (H k'). cbn in H. rewrite String.eqb_refl in H. discriminate H.
    + intros ->. reflexivity.
  - intros Hb. apply not_true_is_false. rewrite deepStrictEqual_lookups.
    intros H. specialize (H k). cbn in H. rewrite String.eqb_refl, Hb in H.
    discriminate H.
  - intros Ha. apply not_true_is_false. rewrite deepStrictEqual_lookups.
    intros H. specialize (H k). cbn in H. rewrite String.eqb_refl, Ha in H.
    discriminate H.
Qed.

Lemma deepStrictEqual_by_lookup_witness :
  deepStrictEqual (("X-Goog-Extra", QsStr "1") :: sampleQuery) sampleQuery
  = false.
Proof.
  apply (proj1 (proj2 (proj2
           (deepStrictEqual_by_lookup sampleQuery sampleQuery "X-Goog-Extra"
              (QsStr "1"))))).
  reflexivity.
Defined.

(** ** What the suites report *)

Lemma runTests_report (ts : list TestDef) (w : World) :
  map fst (runTests ts w).1 = map title ts /\
  Forall (fun r => r.2 <> Pending) (runTests ts w).1.
Proof.
  revert w. induction ts as [|t rest IH]; intros w; cbn [runTests].
  - split; [reflexivity | constructor].
  - destruct (runTest t w) as [v w1] eqn:Ht.
    specialize (IH w1). destruct (runTests rest w1) as [vs w2].
    cbn in *. destruct IH as [IHt IHv]. split; [f_equal; exact IHt |].
    constructor; [| exact IHv]. cbn.
    unfold runTest in Ht. destruct (body t w) as [[?|] ?];
      injection Ht as <- _; discriminate.
Qed.

(** X21: the URL suite reports one result per URL case, in the order of
    the cases and under each case's description, and every one of them is
    a pass or a failure, never pending. *)
Theorem urlSuite_reports_every_case (rt : Runtime)
    (cases : list V4SignedURLTestCase) (w : World) :
  map fst (runSuite (urlSuite rt cases) w).1
    = map (fun t => Some (Js.JStr (description t))) cases /\
  length (runSuite (urlSuite rt cases) w).1 = length cases /\
  Forall (fun r => r.2 <> Pending) (runSuite (urlSuite rt cases) w).1.
Proof.
  unfold runSuite. cbn [skipped urlSuite tests].
  destruct (runTests_report
              (map (fun t => {| title := Some (Js.JStr (description t));
                                body := urlTest rt t |}) cases) w)
    as [Htitles Hverdicts].
  rewrite List.map_map in Htitles. cbn in Htitles.
  split; [exact Htitles |]. split; [| exact Hverdicts].
  rewrite <- (length_map fst), Htitles, length_map. reflexivity.
Qed.

(** X22: when every entry the loop keeps has a string description, the
    policy suite reports exactly the fixture entries with a falsy
    expectedUrl and a truthy policyInput, in fixture order, each under its
    own description, which is a string, and each as pending. *)
Theorem policySuite_reports_pending (fixture : list Entry) (w : World) :
  titlesAreStrings fixture ->
  (runSuite (policySuite (v4SignedPolicyCases (partitionCases fixture))) w).1
  = map (fun e => (Js.get e "description", Pending))
        (List.filter isPolicyOnly fixture) /\
  Forall (fun r => exists s, r.1 = Some (Js.JStr s))
    (runSuite (policySuite (v4SignedPolicyCases (partitionCases fixture))) w).1.
Proof.
  intros Htitles.
  assert (Hreport :
    (runSuite (policySuite (v4SignedPolicyCases (partitionCases fixture))) w).1
    = map (fun e => (Js.get e "description", Pending))
          (List.filter isPolicyOnly fixture)).
  { rewrite partition_closed_form. unfold runSuite.
    cbn [skipped policySuite tests v4SignedPolicyCases fst].
    rewrite List.map_map. reflexivity. }
  split; [exact Hreport |]. rewrite Hreport.
  apply Forall_forall. intros r Hr.
  apply list_elem_of_In, in_map_iff in Hr. destruct Hr as (e & <- & He).
  apply List.filter_In in He. destruct He as [Hin Hpol]. cbn [fst].
  apply (Htitles e Hin). unfold isDropped, isPolicyOnly in *.
  apply andb_true_iff in Hpol. destruct Hpol as [-> ->]. reflexivity.
Qed.

Lemma policySuite_reports_pending_witness :
  (runSuite (policySuite (v4SignedPolicyCases (partitionCases describedFixture)))
     startWorld).1
  = [(Some (Js.JStr "POST Policy Simple"), Pending)].
Proof.
  apply (proj1 (policySuite_reports_pending describedFixture startWorld
                  ltac:(intros e [<-|[<-|[]]] _; eexists; reflexivity))).
Defined.
